(** * cmdr.py: the MDM command generator of nanomdm (tools/cmdr.py)

    A shallow embedding of the script and the statements of its
    specification that can be settled on it.

    Python values are modelled by one dynamically typed universe [pyval];
    dictionaries and the argparse [Namespace] are finite maps from
    attribute or key names to values.  What the script obtains from its
    surroundings (the random bytes behind [uuid.uuid4()], the index drawn
    by [random.choice], the files that can be opened) is collected in an
    environment [Env] and passed explicitly.

    The library calls follow CPython 3.8 to 3.11.  Where these differ in a
    way the script can observe, the difference is a field of [Env]:
    [plistlib.Data], which [install_profile] uses, exists up to CPython 3.8
    only, and the stream behind the path ["-"] changed from text to
    binary.

    Of argparse, the model covers the command lines whose strings are
    arguments, [-h]/[--help] or the separator [--]; on a command line with
    another option-like string before the separator the model is silent
    ([parse_args] and [main] return [None]). *)

From Stdlib Require Import ZArith Ascii String List Lia.
From stdpp Require Import gmap strings list fin_maps.

Local Open Scope string_scope.
Local Open Scope Z_scope.

Set Warnings "-register-all".

(** ** Python values *)

(** An open binary file object: the bytes of the file and the read
    position. *)
Record BufferedReader := {
  f_bytes : list Byte.byte;
  f_pos : nat;
}.

Inductive pyval : Type :=
  | VNone
  | VBool (b : bool)
  | VStr (s : string)
  | VBytes (b : list Byte.byte)
  (** [plistlib.Data(b)] *)
  | VData (b : list Byte.byte)
  | VList (l : list pyval)
  | VDict (d : gmap string pyval)
  | VFile (f : BufferedReader)
  (** the text stream [sys.stdin], with what remains to be read from it *)
  | VTextIO (s : string)
  (** the closure [simple_command_body] together with the variable
      [request_type] it captures *)
  | VSimpleCommandBody (request_type : pyval)
  (** the module-level functions *)
  | VInstallProfile
  | VRemoveProfile
  | VDevInfo.

(** Python truth value testing, on the values that occur. *)
Definition truthy (v : pyval) : bool :=
  match v with
  | VNone => false
  | VBool b => b
  | VStr s => negb (Nat.eqb (String.length s) 0)
  | VBytes b => negb (Nat.eqb (length b) 0)
  | VList l => negb (Nat.eqb (length l) 0)
  | VDict d => negb (Nat.eqb (size d) 0)
  | _ => true
  end.

(** ** Exceptions *)

Inductive exn :=
  | AttributeError (name : string)
  | TypeError
  | IndexError
  (** what [plistlib.dump] raises on a value it cannot write: [TypeError]
      for an unsupported type, [ValueError] for a string with a control
      character, whichever the writer meets first *)
  | DumpError.

Inductive result (A : Type) :=
  | Ok (a : A)
  | Raise (e : exn).
Arguments Ok {A} a.
Arguments Raise {A} e.

#[global] Instance result_ret : MRet result := λ A a, Ok a.
#[global] Instance result_bind : MBind result := λ A B k r,
  match r with
  | Ok a => k a
  | Raise e => Raise e
  end.

(** [obj.name] on a namespace: the attribute, or [AttributeError]. *)
Definition getattr (args : gmap string pyval) (name : string) : result pyval :=
  match args !! name with
  | Some v => Ok v
  | None => Raise (AttributeError name)
  end.

Definition hasattr (args : gmap string pyval) (name : string) : bool :=
  bool_decide (is_Some (args !! name)).

(** ** The library functions the script calls *)

Module uuid.

(** [uuid.uuid4()] is [UUID(bytes=os.urandom(16), version=4)]: the 128
    random bits with the variant bits set to [10] and the version
    nibble set to [4].  [rnd] stands for the bytes of [os.urandom(16)]
    read as a big-endian integer; only its low 128 bits are used. *)
Definition uuid4 (rnd : Z) : Z :=
  let int := rnd mod 2 ^ 128 in
  let int := Z.land int (Z.lnot (Z.shiftl 0xc000 48)) in
  let int := Z.lor int (Z.shiftl 0x8000 48) in
  let int := Z.land int (Z.lnot (Z.shiftl 0xf000 64)) in
  Z.lor int (Z.shiftl 4 76).

Definition hexchars : list ascii :=
  list_ascii_of_string "0123456789abcdef".

Definition hexchar (d : Z) : ascii :=
  nth (Z.to_nat d) hexchars "0"%char.

(** The [i]-th hexadecimal digit of [x], counted from the least
    significant one. *)
Definition nibble (x : Z) (i : nat) : Z :=
  Z.land (Z.shiftr x (4 * Z.of_nat i)) 15.

(** ['%032x' % x] for [0 <= x < 2^128]: 32 lower-case hexadecimal
    digits, most significant first. *)
Definition format_032x (x : Z) : list ascii :=
  map (λ i, hexchar (nibble x i)) (rev (seq 0 32)).

(** [UUID.__str__] on the digits:
    ['%s-%s-%s-%s-%s' % (hex[:8], hex[8:12], hex[12:16], hex[16:20], hex[20:])] *)
Definition hyphenate (hex : list ascii) : list ascii :=
  take 8 hex ++ "-"%char :: take 4 (drop 8 hex) ++ "-"%char ::
  take 4 (drop 12 hex) ++ "-"%char :: take 4 (drop 16 hex) ++ "-"%char ::
  drop 20 hex.

Definition str (int : Z) : string :=
  string_of_list_ascii (hyphenate (format_032x int)).

(** *** Syntactic validity of a UUID string

    The canonical textual form: 36 characters, hyphens at offsets 8,
    13, 18 and 23, hexadecimal digits of either case elsewhere. *)
Definition is_hex (c : ascii) : bool :=
  let n := nat_of_ascii c in
  ((48 <=? n) && (n <=? 57) || (97 <=? n) && (n <=? 102) ||
   (65 <=? n) && (n <=? 70))%nat.

Definition hyphen_at (i : nat) : bool :=
  ((i =? 8) || (i =? 13) || (i =? 18) || (i =? 23))%nat.

Fixpoint well_formed_from (i : nat) (cs : list ascii) : bool :=
  match cs with
  | [] => true
  | c :: cs' =>
      (if hyphen_at i then Ascii.eqb c "-" else is_hex c)
      && well_formed_from (S i) cs'
  end.

Definition is_uuid_string (s : string) : bool :=
  let cs := list_ascii_of_string s in
  (length cs =? 36)%nat && well_formed_from 0 cs.

End uuid.

Module random.

(** [random.choice(seq)] is [seq[self._randbelow(len(seq))]], and raises
    [IndexError] on an empty sequence.  [r] is the number the generator
    draws; it is reduced below the length of the sequence. *)
Definition choice {A} (r : nat) (seq : list A) : result A :=
  match seq !! (r mod length seq)%nat with
  | Some x => Ok x
  | None => Raise IndexError
  end.

End random.

Module plistlib.

(** The XML writer refuses strings that contain a control character
    other than tab, line feed and carriage return. *)
Definition is_control (c : ascii) : bool :=
  let n := nat_of_ascii c in
  ((n <? 32) && negb ((n =? 9) || (n =? 10) || (n =? 13)))%nat.

Definition writable_string (s : string) : bool :=
  forallb (λ c, negb (is_control c)) (list_ascii_of_string s).

(** The values [plistlib.dump] can write, among those of [pyval]. *)
Fixpoint writable (v : pyval) : bool :=
  match v with
  | VBool _ | VBytes _ | VData _ => true
  | VStr s => writable_string s
  | VList l => forallb writable l
  | VDict d =>
      map_fold (λ k v' acc, writable_string k && writable v' && acc) true d
  | _ => false
  end.

(** [plistlib.Data(data)], where the class exists, raises [TypeError]
    unless [data] is a [bytes] object. *)
Definition Data (data : pyval) : result pyval :=
  match data with
  | VBytes b => Ok (VData b)
  | _ => Raise TypeError
  end.

End plistlib.

(** ** File objects *)

(** [f.read()] on a binary file: the bytes from the read position to the
    end of the file; the position moves to the end. *)
Definition read (f : BufferedReader) : list Byte.byte * BufferedReader :=
  (drop (f_pos f) (f_bytes f),
   {| f_bytes := f_bytes f; f_pos := Nat.max (f_pos f) (length (f_bytes f)) |}).

(** ** The environment of one run *)

Record Env := {
  (** the 16 bytes [os.urandom] hands to [uuid.uuid4()], as an integer *)
  urandom16 : Z;
  (** the number drawn by [random.choice] *)
  randbelow : nat;
  (** the files that [open(path, "rb")] can open, with their contents *)
  files : gmap string (list Byte.byte);
  (** the stream that [argparse.FileType("rb")] returns for the path
      ["-"]: the text stream [sys.stdin] up to CPython 3.8, the binary
      [sys.stdin.buffer] later *)
  stdin : pyval;
  (** whether the module [plistlib] has the class [Data]: it was removed
      in CPython 3.9 *)
  plistlib_has_Data : bool;
}.

(** ** The command builders (cmdr.py, lines 10-41) *)

(** The body of the closure: [request_type] is the captured variable, and
    the first component of the result is its value after the call
    ([nonlocal request_type]). *)
Definition simple_command_body (request_type : pyval)
    (args : gmap string pyval) : pyval * gmap string pyval :=
  let request_type :=
    match request_type, args !! "request_type" with
    | VNone, Some v => v
    | _, _ => request_type
    end in
  (request_type, {[ "RequestType" := request_type ]}).

Definition simple_command (request_type : pyval) : pyval :=
  VSimpleCommandBody request_type.

(** In [plistlib.Data(args.mobileconfig.read())] the attribute
    [plistlib.Data] is looked up before the argument is evaluated. *)
Definition install_profile (env : Env) (args : gmap string pyval)
    : result (gmap string pyval) :=
  if plistlib_has_Data env then
    mobileconfig ← getattr args "mobileconfig";
    contents ← match mobileconfig with
               | VFile f => Ok (VBytes (read f).1)
               | VTextIO s => Ok (VStr s)
               | _ => Raise (AttributeError "read")
               end;
    payload ← plistlib.Data contents;
    Ok {[ "RequestType" := VStr "InstallProfile"; "Payload" := payload ]}
  else Raise (AttributeError "Data").

Definition remove_profile (args : gmap string pyval)
    : result (gmap string pyval) :=
  identifier ← getattr args "identifier";
  Ok {[ "RequestType" := VStr "RemoveProfile"; "Identifier" := identifier ]}.

Definition dev_info (args : gmap string pyval) : result (gmap string pyval) :=
  let c : gmap string pyval := {[ "RequestType" := VStr "DeviceInformation" ]} in
  match args !! "query" with
  | Some query => if truthy query then Ok (<["Queries" := query]> c) else Ok c
  | None => Ok c
  end.

(** Calling a value with the namespace as its only argument
    ([args.func(args)]). *)
Definition call (env : Env) (func : pyval) (args : gmap string pyval)
    : result (gmap string pyval) :=
  match func with
  | VSimpleCommandBody request_type =>
      Ok (simple_command_body request_type args).2
  | VInstallProfile => install_profile env args
  | VRemoveProfile => remove_profile args
  | VDevInfo => dev_info args
  | _ => Raise TypeError
  end.

(** ** The command line parser (cmdr.py, lines 44-157) *)

Inductive ArgType :=
  | type_str
  (** [argparse.FileType("rb")] *)
  | FileType_rb.

Inductive Nargs :=
  (** no [nargs]: exactly one argument string *)
  | nargs_one
  (** [nargs="*"] *)
  | nargs_star.

(** A positional argument added with [add_argument]. *)
Record Argument := {
  dest : string;
  nargs : Nargs;
  type : ArgType;
}.

(** A parser created with [add_parser]: every sub-command of the script
    has at most one positional argument, and defaults set with
    [set_defaults]. *)
Record ArgumentParser := {
  help : string;
  positional : option Argument;
  defaults : gmap string pyval;
}.

Definition dev_info_subparser (parser : gmap string ArgumentParser)
    : gmap string ArgumentParser :=
  <["DeviceInformation" :=
     {| help := "DeviceInformation MDM command";
        positional := Some {| dest := "query"; nargs := nargs_star;
                              type := type_str |};
        defaults := {[ "func" := VDevInfo ]} |}]> parser.

Definition inst_prof_subparser (parser : gmap string ArgumentParser)
    : gmap string ArgumentParser :=
  <["InstallProfile" :=
     {| help := "InstallProfile MDM command";
        positional := Some {| dest := "mobileconfig"; nargs := nargs_one;
                              type := FileType_rb |};
        defaults := {[ "func" := VInstallProfile ]} |}]> parser.

Definition rem_prof_subparser (parser : gmap string ArgumentParser)
    : gmap string ArgumentParser :=
  <["RemoveProfile" :=
     {| help := "RemoveProfile MDM command";
        positional := Some {| dest := "identifier"; nargs := nargs_one;
                              type := type_str |};
        defaults := {[ "func" := VRemoveProfile ]} |}]> parser.

Definition simple_command_subparser (request_type : string)
    (parser : gmap string ArgumentParser) : gmap string ArgumentParser :=
  <[request_type :=
     {| help := request_type ++ " MDM command";
        positional := None;
        defaults := {[ "func" := simple_command (VStr request_type) ]} |}]>
  parser.

Definition command_subparser (parser : gmap string ArgumentParser)
    : gmap string ArgumentParser :=
  <["command" :=
     {| help := "arbitrary MDM command (simple non-argument command)";
        positional := Some {| dest := "request_type"; nargs := nargs_one;
                              type := type_str |};
        defaults := {[ "func" := simple_command VNone ]} |}]> parser.

(** The list that the loop of [main] (lines 126-148) runs over. *)
Definition fixed_commands : list string := [
  "ProfileList";
  "ProvisioningProfileList";
  "CertificateList";
  "SecurityInfo";
  "RestartDevice";
  "ShutDownDevice";
  "StopMirroring";
  "ClearRestrictionsPassword";
  "UserList";
  "LogOutUser";
  "PlayLostModeSound";
  "DisableLostMode";
  "DeviceLocation";
  "ManagedMediaList";
  "DeviceConfigured";
  "AvailableOSUpdates";
  "NSExtensionMappings";
  "OSUpdateStatus";
  "EnableRemoteDesktop";
  "DisableRemoteDesktop";
  "ActivationLockBypassCode"
].

(** The sub-commands registered by [main] (lines 126-155). *)
Definition subparsers : gmap string ArgumentParser :=
  let subparsers := foldl (λ p c, simple_command_subparser c p) ∅ fixed_commands in
  let subparsers := dev_info_subparser subparsers in
  let subparsers := inst_prof_subparser subparsers in
  let subparsers := rem_prof_subparser subparsers in
  command_subparser subparsers.

(** The errors [parse_args] reports through [parser.error]: the usage
    line and the message go to standard error and the process exits with
    status 2. *)
Inductive ArgumentError :=
  | invalid_choice (name : string)
  | required_argument (dest : string)
  | unrecognized_arguments (extras : list string)
  | cannot_open (path : string).

(** *** How argparse reads one string of the command line

    A string is an argument if it is empty, does not start with [-], or is
    [-] alone; [-h] and [--help] are the option every parser has; [--]
    ends the options: every string after the first [--] is an argument.
    Other strings that start with [-] (unknown options, abbreviations,
    negative numbers, ...) are not modelled. *)
Definition plain (s : string) : bool :=
  match s with
  | EmptyString => true
  | String c rest => negb (Ascii.eqb c "-") || Nat.eqb (String.length rest) 0
  end.

Definition is_help (s : string) : bool :=
  String.eqb s "-h" || String.eqb s "--help".

Definition is_separator (s : string) : bool := String.eqb s "--".

(** The strings before the first [--]. *)
Fixpoint before_separator (arg_strings : list string) : list string :=
  match arg_strings with
  | [] => []
  | s :: rest => if is_separator s then [] else s :: before_separator rest
  end.

(** The strings after the first [--], if there is one. *)
Fixpoint after_separator (arg_strings : list string)
    : option (list string) :=
  match arg_strings with
  | [] => None
  | s :: rest => if is_separator s then Some rest else after_separator rest
  end.

(** The strings before the first [-h]/[--help]. *)
Fixpoint before_help (arg_strings : list string) : list string :=
  match arg_strings with
  | [] => []
  | s :: rest => if is_help s then [] else s :: before_help rest
  end.

(** The command lines the model covers. *)
Definition modelled (arg_strings : list string) : bool :=
  forallb (λ s, plain s || is_help s) (before_separator arg_strings).

(** A command line as argparse splits it: the global options, which come
    before the sub-command, then the name of the sub-command and the
    strings that follow it, as they are given.  [opt_help] tells whether
    [-h]/[--help] occurs among the global options, [opt_uuid] is the value
    of the last [--uuid=...] (or [-u ...]), [opt_random] tells whether
    [-r]/[--random] occurs. *)
Record Invocation := {
  opt_help : bool;
  opt_uuid : option string;
  opt_random : bool;
  command : option (string * list string);
}.

(** The [type] conversion of one argument string. *)
Definition convert (env : Env) (t : ArgType) (s : string)
    : ArgumentError + pyval :=
  match t with
  | type_str => inr (VStr s)
  | FileType_rb =>
      if String.eqb s "-" then inr (stdin env)
      else match files env !! s with
           | Some b => inr (VFile {| f_bytes := b; f_pos := 0 |})
           | None => inl (cannot_open s)
           end
  end.

(** The conversion of the strings of a [nargs="*"] argument, in order; the
    first failure is the one reported. *)
Fixpoint convert_all (env : Env) (t : ArgType) (arg_strings : list string)
    : ArgumentError + list pyval :=
  match arg_strings with
  | [] => inr []
  | s :: rest =>
      match convert env t s with
      | inl e => inl e
      | inr value =>
          match convert_all env t rest with
          | inl e => inl e
          | inr values => inr (value :: values)
          end
      end
  end.

(** The string that a positional argument without [nargs] takes from a
    command line without options, and the strings left over: the first
    string, or the one after a leading [--]; a [--] right after the string
    taken is dropped with it. *)
Definition one_argument (arg_strings : list string)
    : option (string * list string) :=
  match arg_strings with
  | [] => None
  | s :: rest =>
      if is_separator s then
        match rest with
        | [] => None
        | s' :: extras => Some (s', extras)
        end
      else
        match rest with
        | [] => Some (s, [])
        | s' :: extras => if is_separator s' then Some (s, extras)
                          else Some (s, rest)
        end
  end.

(** What a sub-parser does with the strings after its name. *)
Inductive SubResult :=
  (** the attributes it sets *)
  | sub_accepted (attrs : gmap string pyval)
  (** an error, reported by it or, for left-over strings, by the main
      parser *)
  | sub_rejected (e : ArgumentError)
  (** [-h]/[--help]: it prints its help and exits with status 0 *)
  | sub_help.

(** A sub-parser on the strings after its name, for a [modelled] list.
    When [-h]/[--help] occurs before any [--], the positional argument is
    first filled from the strings before the option (a file is opened, and
    failing to open it is reported), then the help is served.  Otherwise
    the positional argument takes its strings, the first [--] is dropped,
    and strings left over are reported as unrecognized. *)
Definition parse_subcommand (env : Env) (p : ArgumentParser)
    (arg_strings : list string) : SubResult :=
  let before := before_separator arg_strings in
  if existsb is_help before then
    match positional p, before_help before with
    | Some a, s :: rest =>
        match nargs a with
        | nargs_one =>
            match convert env (type a) s with
            | inl e => sub_rejected e
            | inr _ => sub_help
            end
        | nargs_star =>
            match convert_all env (type a) (s :: rest) with
            | inl e => sub_rejected e
            | inr _ => sub_help
            end
        end
    | _, _ => sub_help
    end
  else
    match positional p with
    | None =>
        match arg_strings with
        | [] => sub_accepted (defaults p)
        | _ => sub_rejected (unrecognized_arguments arg_strings)
        end
    | Some a =>
        match nargs a with
        | nargs_star =>
            match convert_all env (type a)
                    (before ++ default [] (after_separator arg_strings)) with
            | inl e => sub_rejected e
            | inr values =>
                sub_accepted (<[dest a := VList values]> (defaults p))
            end
        | nargs_one =>
            match one_argument arg_strings with
            | None => sub_rejected (required_argument (dest a))
            | Some (s, extras) =>
                match convert env (type a) s with
                | inl e => sub_rejected e
                | inr value =>
                    match extras with
                    | [] => sub_accepted (<[dest a := value]> (defaults p))
                    | _ => sub_rejected (unrecognized_arguments extras)
                    end
                end
            end
        end
    end.

(** How [parser.parse_args()] ends. *)
Inductive ParseResult :=
  (** it returns the namespace *)
  | namespace (args : gmap string pyval)
  (** [parser.error]: usage and message, exit status 2 *)
  | parser_error (e : ArgumentError)
  (** [-h]/[--help]: the help of the main parser ([None]) or of a
      sub-command is printed, exit status 0 *)
  | parser_help (subcommand : option string).

(** [parser.parse_args()], or [None] on a command line that is not
    [modelled].  [default_uuid] is the [default] of [--uuid], computed
    when the option is added (line 112).  A global [-h] is served before
    the sub-command is looked at. *)
Definition parse_args (env : Env) (default_uuid : string) (inv : Invocation)
    : option ParseResult :=
  let args : gmap string pyval :=
    {[ "uuid" := VStr (default default_uuid (opt_uuid inv));
       "random" := VBool (opt_random inv) ]} in
  match command inv with
  | None => Some (if opt_help inv then parser_help None else namespace args)
  | Some (name, arg_strings) =>
      if plain name && modelled arg_strings then
        Some (if opt_help inv then parser_help None
              else
                match subparsers !! name with
                | None => parser_error (invalid_choice name)
                | Some p =>
                    match parse_subcommand env p arg_strings with
                    | sub_accepted attrs => namespace (attrs ∪ args)
                    | sub_rejected e => parser_error e
                    | sub_help => parser_help (Some name)
                    end
                end)
      else None
  end.

(** ** The run after parsing (cmdr.py, lines 159-180) *)

(** What a run leaves behind, in order. *)
Inductive Event :=
  (** the help of the main parser, on standard output: [-h]/[--help] or
      [parser.print_help()] *)
  | print_help
  (** the help of a sub-command, on standard output *)
  | print_subcommand_help (name : string)
  (** [parser.error(...)]: usage and message, on standard error *)
  | usage_error (e : ArgumentError)
  (** the property list of a dictionary, on standard output *)
  | plist_document (c : gmap string pyval)
  (** a property list cut short by an exception of the writer *)
  | plist_truncated
  (** the traceback of an uncaught exception, on standard error *)
  | traceback (e : exn).

Record Outcome := {
  output : list Event;
  status : Z;
}.

Definition read_only_commands : list string := [
  "SecurityInfo";
  "CertificateList";
  "ProfileList";
  "ProvisioningProfileList"
].

(** Lines 166-179: the random selection and the envelope [c]. *)
Definition envelope (env : Env) (args : gmap string pyval)
    : result (gmap string pyval) :=
  random ← getattr args "random";
  args ← (if truthy random then
            c ← random.choice (randbelow env) read_only_commands;
            Ok (<["func" := simple_command (VStr c)]> args)
          else Ok args);
  uuid ← getattr args "uuid";
  func ← getattr args "func";
  body ← call env func args;
  Ok {[ "CommandUUID" := uuid; "Command" := VDict body ]}.

(** [plistlib.dump(c, sys.stdout.buffer)] *)
Definition dump (c : gmap string pyval) : Outcome :=
  if plistlib.writable (VDict c)
  then {| output := [plist_document c]; status := 0 |}
  else {| output := [plist_truncated; traceback DumpError]; status := 1 |}.

(** Lines 159-180, on the namespace that [parse_args] returned. *)
Definition run (env : Env) (args : gmap string pyval) : Outcome :=
  match getattr args "random" with
  | Raise e => {| output := [traceback e]; status := 1 |}
  | Ok random =>
      if negb (hasattr args "func") && negb (truthy random)
         || hasattr args "func" && truthy random
      then {| output := [print_help]; status := 2 |}
      else
        match envelope env args with
        | Raise e => {| output := [traceback e]; status := 1 |}
        | Ok c => dump c
        end
  end.

(** The whole script, or [None] on a command line that is not
    [modelled]. *)
Definition main (env : Env) (inv : Invocation) : option Outcome :=
  let default_uuid := uuid.str (uuid.uuid4 (urandom16 env)) in
  match parse_args env default_uuid inv with
  | None => None
  | Some (namespace args) => Some (run env args)
  | Some (parser_error e) =>
      Some {| output := [usage_error e]; status := 2 |}
  | Some (parser_help None) =>
      Some {| output := [print_help]; status := 0 |}
  | Some (parser_help (Some name)) =>
      Some {| output := [print_subcommand_help name]; status := 0 |}
  end.

(** ** Names used in the statements *)

(** The sub-commands registered without a positional argument. *)
Definition no_argument_subcommands : gmap string ArgumentParser :=
  filter (λ entry, positional entry.2 = None) subparsers.

(** The [func] a parser sets, if any. *)
Definition registered_func (p : ArgumentParser) : option pyval :=
  defaults p !! "func".

(** Whether the command line asks for help: [-h]/[--help] among the global
    options, or after the sub-command name and before any [--]. *)
Definition asks_help (inv : Invocation) : bool :=
  opt_help inv ||
  match command inv with
  | Some (_, arg_strings) => existsb is_help (before_separator arg_strings)
  | None => false
  end.

(** The bits of the integer of a version 4 UUID that are random: all of
    the 128 but the two variant bits and the four version bits. *)
Definition random_bit (i : Z) : bool :=
  (0 <=? i) && (i <? 128) &&
  negb ((i =? 62) || (i =? 63) || (i =? 76) || (i =? 77) || (i =? 78) ||
        (i =? 79)).

(** The digits of a hyphenated string, without the hyphens. *)
Definition unhyphenate (cs : list ascii) : list ascii :=
  take 8 cs ++ take 4 (drop 9 cs) ++ take 4 (drop 14 cs) ++
  take 4 (drop 19 cs) ++ drop 24 cs.

(** An environment for the examples, on CPython 3.8: all random bits zero,
    one profile on disk. *)
Definition example_env : Env :=
  {| urandom16 := 0;
     randbelow := 0;
     files := {[ "wifi.mobileconfig" := [Byte.x3c; Byte.x3f; Byte.x78] ]};
     stdin := VTextIO EmptyString;
     plistlib_has_Data := true |}.

(** The same on CPython 3.11. *)
Definition example_env_311 : Env :=
  {| urandom16 := 0;
     randbelow := 0;
     files := {[ "wifi.mobileconfig" := [Byte.x3c; Byte.x3f; Byte.x78] ]};
     stdin := VFile {| f_bytes := []; f_pos := 0 |};
     plistlib_has_Data := false |}.

(** The parsers of the four sub-commands that take arguments. *)
Definition with_arguments : gmap string ArgumentParser :=
  command_subparser (rem_prof_subparser (inst_prof_subparser
    (dev_info_subparser ∅))).

(** The parser that [simple_command_subparser] registers under a name. *)
Definition simple_parser (request_type : string) : ArgumentParser :=
  {| help := request_type ++ " MDM command";
     positional := None;
     defaults := {[ "func" := simple_command (VStr request_type) ]} |}.

(** The attributes that the sub-parsers can set: for each sub-command,
    what the namespace holds beside [uuid] and [random] when the command
    line is accepted. *)
Inductive parsed_attrs (env : Env)
    : option string → gmap string pyval → Prop :=
  | attrs_no_command :
      parsed_attrs env None ∅
  | attrs_simple (name : string) :
      name ∈ fixed_commands →
      parsed_attrs env (Some name)
        {[ "func" := simple_command (VStr name) ]}
  | attrs_generic (request_type : string) :
      parsed_attrs env (Some "command")
        {[ "request_type" := VStr request_type;
           "func" := simple_command VNone ]}
  | attrs_remove_profile (identifier : string) :
      parsed_attrs env (Some "RemoveProfile")
        {[ "identifier" := VStr identifier; "func" := VRemoveProfile ]}
  | attrs_install_profile_file (path : string) (contents : list Byte.byte) :
      files env !! path = Some contents →
      parsed_attrs env (Some "InstallProfile")
        {[ "mobileconfig" := VFile {| f_bytes := contents; f_pos := 0 |};
           "func" := VInstallProfile ]}
  | attrs_install_profile_stdin :
      parsed_attrs env (Some "InstallProfile")
        {[ "mobileconfig" := stdin env; "func" := VInstallProfile ]}
  | attrs_dev_info (queries : list string) :
      parsed_attrs env (Some "DeviceInformation")
        {[ "query" := VList (VStr <$> queries); "func" := VDevInfo ]}.

(** * Properties *)

(** ** The UUID generator *)

Section uuid_facts.
Import uuid.

Lemma is_hex_hexchar (d : Z) : is_hex (hexchar d) = true.
Proof.
  unfold hexchar. generalize (Z.to_nat d). intros n.
  do 16 (destruct n as [|n]; [reflexivity|]).
  destruct n; reflexivity.
Qed.

(** Any 32 hexadecimal digits, hyphenated as [UUID.__str__] does, form a
    well-formed UUID string. *)
Lemma hyphenate_well_formed (hex : list ascii) :
  length hex = 32%nat →
  forallb is_hex hex = true →
  is_uuid_string (string_of_list_ascii (hyphenate hex)) = true.
Proof.
  intros Hlen Hhex. unfold is_uuid_string.
  rewrite list_ascii_of_string_of_list_ascii.
  do 32 (destruct hex as [|? hex]; [discriminate Hlen|]).
  destruct hex; [|discriminate Hlen].
  cbn in Hhex.
  repeat (apply andb_prop in Hhex; destruct Hhex as [? Hhex]).
  cbn -[is_hex]. 
  repeat match goal with H : is_hex _ = true |- _ => rewrite H; clear H end.
  reflexivity.
Qed.

Lemma format_032x_hex (x : Z) :
  length (format_032x x) = 32%nat ∧ forallb is_hex (format_032x x) = true.
Proof.
  unfold format_032x. split.
  - rewrite length_map, length_rev, length_seq. reflexivity.
  - apply forallb_forall. intros c Hc.
    apply in_map_iff in Hc as (i & <- & _). apply is_hex_hexchar.
Qed.

(** [str] turns every integer into a well-formed UUID string. *)
Lemma str_is_uuid_string (x : Z) : is_uuid_string (str x) = true.
Proof.
  unfold str. destruct (format_032x_hex x).
  by apply hyphenate_well_formed.
Qed.

(** The integer of a version 4 UUID has 128 bits, so that ['%032x']
    prints exactly 32 digits. *)
Lemma uuid4_range (rnd : Z) : 0 ≤ uuid4 rnd < 2 ^ 128.
Proof.
  assert (Hmod : uuid4 rnd mod 2 ^ 128 = uuid4 rnd).
  { rewrite <- Z.land_ones by lia. apply Z.bits_inj'. intros n Hn.
    rewrite Z.land_spec. destruct (Z.ltb_spec n 128) as [Hlow|Hhigh].
    - rewrite Z.ones_spec_low by lia. apply andb_true_r.
    - rewrite Z.ones_spec_high by lia. rewrite andb_false_r.
      unfold uuid4. cbv zeta.
      repeat (rewrite Z.lor_spec || rewrite Z.land_spec).
      rewrite (Z.mod_pow2_bits_high rnd 128 n) by lia.
      assert (Hvariant : Z.log2 (Z.shiftl 0x8000 48) = 63) by reflexivity.
      assert (Hversion : Z.log2 (Z.shiftl 4 76) = 78) by reflexivity.
      rewrite (Z.bits_above_log2 (Z.shiftl 0x8000 48) n), 
        (Z.bits_above_log2 (Z.shiftl 4 76) n); [reflexivity | | | |];
        first [ by vm_compute | lia ]. }
  rewrite <- Hmod. apply Z.mod_pos_bound. lia.
Qed.

Lemma nibble_range (x : Z) (i : nat) : 0 ≤ nibble x i < 16.
Proof.
  unfold nibble. change 15 with (Z.ones 4).
  rewrite Z.land_ones by lia. apply Z.mod_pos_bound. lia.
Qed.

Lemma hexchar_inj (a b : Z) :
  0 ≤ a < 16 → 0 ≤ b < 16 → hexchar a = hexchar b → a = b.
Proof.
  intros Ha Hb.
  assert (Ha' : a = Z.of_nat (Z.to_nat a)) by lia.
  assert (Hb' : b = Z.of_nat (Z.to_nat b)) by lia.
  assert (Hna : (Z.to_nat a < 16)%nat) by lia.
  assert (Hnb : (Z.to_nat b < 16)%nat) by lia.
  rewrite Ha', Hb'. unfold hexchar. rewrite !Nat2Z.id.
  generalize dependent (Z.to_nat b). generalize dependent (Z.to_nat a).
  clear. intros n _ Hn m _ Hm Heq.
  do 16 (destruct n as [|n]; [
    do 16 (destruct m as [|m]; [first [reflexivity | discriminate Heq]|]);
    lia |]).
  lia.
Qed.

(** The hyphens can be taken out again. *)
Lemma unhyphenate_hyphenate (hex : list ascii) :
  length hex = 32%nat → unhyphenate (hyphenate hex) = hex.
Proof.
  intros Hlen.
  do 32 (destruct hex as [|? hex]; [discriminate Hlen|]).
  destruct hex; [reflexivity | discriminate Hlen].
Qed.

(** The string of an integer determines each of its 32 hexadecimal
    digits. *)
Lemma str_nibbles (x y : Z) (i : nat) :
  str x = str y → (i < 32)%nat → nibble x i = nibble y i.
Proof.
  unfold str. intros Heq Hi.
  apply (f_equal list_ascii_of_string) in Heq.
  rewrite !list_ascii_of_string_of_list_ascii in Heq.
  apply (f_equal unhyphenate) in Heq.
  rewrite !unhyphenate_hyphenate in Heq by apply format_032x_hex.
  unfold format_032x in Heq.
  apply hexchar_inj; [apply nibble_range..|].
  apply (ext_in_map Heq). apply in_rev. rewrite rev_involutive.
  apply in_seq. lia.
Qed.

(** ... and so each of its low 128 bits. *)
Lemma str_bits (x y : Z) (i : Z) :
  str x = str y → 0 ≤ i < 128 → Z.testbit x i = Z.testbit y i.
Proof.
  intros Heq Hi.
  pose proof (str_nibbles x y (Z.to_nat (i / 4)) Heq) as Hn.
  assert (Hq : 0 ≤ i / 4 < 32) by (split; [apply Z.div_pos | apply Z.div_lt_upper_bound]; lia).
  specialize (Hn ltac:(lia)).
  apply (f_equal (λ z, Z.testbit z (i mod 4))) in Hn.
  unfold nibble in Hn. rewrite !Z.land_spec, !Z.shiftr_spec in Hn
    by (apply Z.mod_pos_bound; lia).
  rewrite Z2Nat.id in Hn by lia.
  replace (i mod 4 + 4 * (i / 4)) with i in Hn
    by (rewrite (Z.div_mod i 4) at 1; lia).
  assert (H15 : Z.testbit 15 (i mod 4) = true).
  { pose proof (Z.mod_pos_bound i 4 ltac:(lia)) as Hm.
    assert (Hc : i mod 4 = 0 ∨ i mod 4 = 1 ∨ i mod 4 = 2 ∨ i mod 4 = 3)
      by lia.
    destruct Hc as [->|[->|[->| ->]]]; reflexivity. }
  by rewrite H15, !andb_true_r in Hn.
Qed.

(** The masks of [uuid4] leave the random bits alone. *)
Lemma uuid4_masks :
  forallb (λ n, let i := Z.of_nat n in
    implb (random_bit i)
      (negb (Z.testbit (Z.shiftl 0xc000 48) i) &&
       negb (Z.testbit (Z.shiftl 0x8000 48) i) &&
       negb (Z.testbit (Z.shiftl 0xf000 64) i) &&
       negb (Z.testbit (Z.shiftl 4 76) i))) (seq 0 128) = true.
Proof. vm_compute. reflexivity. Qed.

(** Each random bit of the integer of a version 4 UUID is the bit of the
    random bytes at the same position. *)
Lemma uuid4_random_bit (rnd i : Z) :
  random_bit i = true → Z.testbit (uuid4 rnd) i = Z.testbit rnd i.
Proof.
  intros Hi.
  assert (Hrange : 0 ≤ i < 128).
  { unfold random_bit in Hi. apply andb_prop in Hi as [Hi _].
    apply andb_prop in Hi as [?%Z.leb_le ?%Z.ltb_lt]. lia. }
  pose proof (proj1 (forallb_forall _ _) uuid4_masks (Z.to_nat i)) as Hm.
  cbv beta zeta in Hm. rewrite Z2Nat.id in Hm by lia. rewrite Hi in Hm.
  specialize (Hm ltac:(apply in_seq; lia)). cbn [implb] in Hm.
  apply andb_prop in Hm as [Hm H4]. apply andb_prop in Hm as [Hm H3].
  apply andb_prop in Hm as [H1 H2].
  apply negb_true_iff in H1, H2, H3, H4.
  unfold uuid4. cbv zeta.
  repeat (rewrite Z.lor_spec || rewrite Z.land_spec || rewrite Z.lnot_spec by lia).
  rewrite H1, H2, H3, H4. rewrite Z.mod_pow2_bits_low by lia.
  by rewrite !andb_true_r, !orb_false_r.
Qed.

(** Random bytes that differ in a random bit give different UUID
    strings. *)
Lemma uuid4_fresh (rnd rnd' i : Z) :
  random_bit i = true →
  Z.testbit rnd i ≠ Z.testbit rnd' i →
  str (uuid4 rnd) ≠ str (uuid4 rnd').
Proof.
  intros Hi Hne Heq. apply Hne.
  rewrite <- (uuid4_random_bit rnd i), <- (uuid4_random_bit rnd' i) by done.
  apply str_bits; [done|].
  unfold random_bit in Hi. apply andb_prop in Hi as [Hi _].
  apply andb_prop in Hi as [?%Z.leb_le ?%Z.ltb_lt]. lia.
Qed.
End uuid_facts.
(** ** The registered sub-commands *)

Lemma foldl_simple_command_subparser (names : list string)
    (parser : gmap string ArgumentParser) (name : string) :
  foldl (λ p c, simple_command_subparser c p) parser names !! name =
  if bool_decide (name ∈ names) then Some (simple_parser name)
  else parser !! name.
Proof.
  revert parser. induction names as [|c names IH]; intros parser; simpl.
  - reflexivity.
  - rewrite IH. case_bool_decide as Hin.
    + rewrite bool_decide_eq_true_2; [done | by right].
    + unfold simple_command_subparser. rewrite lookup_insert.
      case_decide as Hc.
      * subst c. rewrite bool_decide_eq_true_2; [done | by left].
      * rewrite bool_decide_eq_false_2; [done |].
        intros [?|?]%elem_of_cons; congruence.
Qed.

(** What [main] registers under each name: the simple parser for the names
    of the list, the four parsers with arguments, and nothing else. *)
Lemma subparsers_lookup (name : string) :
  subparsers !! name =
  if bool_decide (name ∈ fixed_commands) then Some (simple_parser name)
  else with_arguments !! name.
Proof.
  case_bool_decide as Hin.
  - assert (Hall : Forall (λ c, c ∉ ["command"; "RemoveProfile";
                                      "InstallProfile"; "DeviceInformation"])
                          fixed_commands)
      by compute_done.
    pose proof (proj1 (Forall_forall _ _) Hall name Hin) as Hne.
    rewrite !not_elem_of_cons in Hne. destruct Hne as (? & ? & ? & ? & _).
    unfold subparsers, command_subparser, rem_prof_subparser,
      inst_prof_subparser, dev_info_subparser.
    rewrite !lookup_insert_ne by done.
    rewrite foldl_simple_command_subparser.
    by rewrite bool_decide_eq_true_2.
  - unfold subparsers, with_arguments, command_subparser, rem_prof_subparser,
      inst_prof_subparser, dev_info_subparser.
    rewrite !lookup_insert. repeat case_decide; try done.
    rewrite foldl_simple_command_subparser.
    by rewrite bool_decide_eq_false_2.
Qed.

(** ** Reading the command line *)

Lemma plain_not_option (s : string) :
  plain s = true → is_separator s = false ∧ is_help s = false.
Proof.
  destruct s as [|c [|c' s]]; [done| |].
  - intros _. unfold is_separator, is_help. cbn [String.eqb].
    by destruct (Ascii.eqb c "-").
  - cbn [plain String.length Nat.eqb]. rewrite orb_false_r.
    intros Hc%negb_true_iff. unfold is_separator, is_help.
    cbn [String.eqb]. by rewrite Hc.
Qed.

(** A list of arguments has no separator and no option in it. *)
Lemma plain_strings (arg_strings : list string) :
  forallb plain arg_strings = true →
  before_separator arg_strings = arg_strings ∧
  after_separator arg_strings = None ∧
  existsb is_help arg_strings = false ∧
  modelled arg_strings = true.
Proof.
  unfold modelled.
  induction arg_strings as [|s rest IH]; [done|].
  cbn [forallb before_separator after_separator existsb].
  intros [Hs Hrest]%andb_prop.
  destruct (plain_not_option s Hs) as [-> ->].
  destruct (IH Hrest) as (-> & -> & -> & Hm).
  cbn [forallb]. by rewrite Hs, Hm.
Qed.

(** After a leading [--] every string is an argument. *)
Lemma separator_first (arg_strings : list string) :
  before_separator ("--" :: arg_strings) = [] ∧
  after_separator ("--" :: arg_strings) = Some arg_strings ∧
  modelled ("--" :: arg_strings) = true.
Proof. done. Qed.

Lemma convert_all_str (env : Env) (arg_strings : list string) :
  convert_all env type_str arg_strings = inr (VStr <$> arg_strings).
Proof.
  induction arg_strings as [|s rest IH]; [done|].
  cbn [convert_all convert]. by rewrite IH.
Qed.

Lemma one_argument_plain (s : string) (rest : list string) :
  forallb plain (s :: rest) = true →
  one_argument (s :: rest) = Some (s, rest).
Proof.
  cbn [forallb]. intros [Hs Hrest]%andb_prop. unfold one_argument.
  destruct (plain_not_option s Hs) as [-> _].
  destruct rest as [|s' extras]; [done|].
  cbn [forallb] in Hrest. apply andb_prop in Hrest as [Hs' _].
  by destruct (plain_not_option s' Hs') as [-> _].
Qed.

(** ** The parsed namespace *)

(** A sub-parser on arguments only. *)
Lemma parse_subcommand_plain (env : Env) (p : ArgumentParser)
    (arg_strings : list string) :
  forallb plain arg_strings = true →
  parse_subcommand env p arg_strings =
  match positional p with
  | None =>
      match arg_strings with
      | [] => sub_accepted (defaults p)
      | _ => sub_rejected (unrecognized_arguments arg_strings)
      end
  | Some a =>
      match nargs a with
      | nargs_star =>
          match convert_all env (type a) arg_strings with
          | inl e => sub_rejected e
          | inr values =>
              sub_accepted (<[dest a := VList values]> (defaults p))
          end
      | nargs_one =>
          match arg_strings with
          | [] => sub_rejected (required_argument (dest a))
          | s :: extras =>
              match convert env (type a) s with
              | inl e => sub_rejected e
              | inr value =>
                  match extras with
                  | [] => sub_accepted (<[dest a := value]> (defaults p))
                  | _ => sub_rejected (unrecognized_arguments extras)
                  end
              end
          end
      end
  end.
Proof.
  intros Hplain. unfold parse_subcommand.
  destruct (plain_strings _ Hplain) as (-> & -> & -> & _).
  cbn [default]. rewrite app_nil_r.
  destruct (positional p) as [a|]; [|done].
  destruct (nargs a); [|done].
  destruct arg_strings as [|s rest]; [done|].
  by rewrite one_argument_plain.
Qed.

(** A sub-parser on a leading [--] followed by any strings. *)
Lemma parse_subcommand_separator (env : Env) (p : ArgumentParser)
    (arg_strings : list string) :
  parse_subcommand env p ("--" :: arg_strings) =
  match positional p with
  | None => sub_rejected (unrecognized_arguments ("--" :: arg_strings))
  | Some a =>
      match nargs a with
      | nargs_star =>
          match convert_all env (type a) arg_strings with
          | inl e => sub_rejected e
          | inr values =>
              sub_accepted (<[dest a := VList values]> (defaults p))
          end
      | nargs_one =>
          match arg_strings with
          | [] => sub_rejected (required_argument (dest a))
          | s :: extras =>
              match convert env (type a) s with
              | inl e => sub_rejected e
              | inr value =>
                  match extras with
                  | [] => sub_accepted (<[dest a := value]> (defaults p))
                  | _ => sub_rejected (unrecognized_arguments extras)
                  end
              end
          end
      end
  end.
Proof.
  unfold parse_subcommand. cbn [before_separator after_separator existsb
    is_separator String.eqb Ascii.eqb Bool.eqb default app one_argument].
  destruct (positional p) as [a|]; [|done].
  destruct (nargs a); [|done]. by destruct arg_strings.
Qed.

Lemma fixed_commands_plain : Forall (λ name, plain name = true) fixed_commands.
Proof. repeat constructor. Qed.

(** The main parser on a registered sub-command. *)
Lemma parse_args_registered (env : Env) (d : string) (u : option string)
    (r : bool) (name : string) (p : ArgumentParser)
    (arg_strings : list string) :
  plain name = true →
  modelled arg_strings = true →
  subparsers !! name = Some p →
  parse_args env d {| opt_help := false; opt_uuid := u; opt_random := r;
                      command := Some (name, arg_strings) |} =
  Some match parse_subcommand env p arg_strings with
       | sub_accepted attrs =>
           namespace (attrs ∪ {[ "uuid" := VStr (default d u);
                                 "random" := VBool r ]})
       | sub_rejected e => parser_error e
       | sub_help => parser_help (Some name)
       end.
Proof.
  intros Hname Hargs Hp. unfold parse_args.
  cbn [command opt_uuid opt_random opt_help]. by rewrite Hname, Hargs, Hp.
Qed.

(** The namespace of a run without sub-command. *)
Lemma parse_args_no_command (env : Env) (d : string) (u : option string)
    (r : bool) :
  parse_args env d {| opt_help := false; opt_uuid := u; opt_random := r;
                      command := None |} =
  Some (namespace {[ "uuid" := VStr (default d u); "random" := VBool r ]}).
Proof. reflexivity. Qed.

Lemma parse_args_simple (env : Env) (d : string) (u : option string)
    (r : bool) (name : string) :
  name ∈ fixed_commands →
  parse_args env d {| opt_help := false; opt_uuid := u; opt_random := r;
                      command := Some (name, []) |} =
  Some (namespace {[ "func" := simple_command (VStr name);
                     "uuid" := VStr (default d u); "random" := VBool r ]}).
Proof.
  intros Hin. unfold parse_args. cbn [command opt_uuid opt_random opt_help].
  rewrite (proj1 (Forall_forall _ _) fixed_commands_plain name Hin).
  rewrite subparsers_lookup, bool_decide_eq_true_2 by done.
  reflexivity.
Qed.

(** The sub-commands with one argument: [values] is what the argument
    strings give. *)
Lemma parse_args_generic (env : Env) (d : string) (u : option string)
    (r : bool) (request_type : string) :
  parse_args env d {| opt_help := false; opt_uuid := u; opt_random := r;
                      command := Some ("command", ["--"; request_type]) |} =
  Some (namespace {[ "request_type" := VStr request_type;
                     "func" := simple_command VNone;
                     "uuid" := VStr (default d u); "random" := VBool r ]}).
Proof. reflexivity. Qed.

Lemma parse_args_generic_plain (env : Env) (d : string) (u : option string)
    (r : bool) (request_type : string) :
  plain request_type = true →
  parse_args env d {| opt_help := false; opt_uuid := u; opt_random := r;
                      command := Some ("command", [request_type]) |} =
  Some (namespace {[ "request_type" := VStr request_type;
                     "func" := simple_command VNone;
                     "uuid" := VStr (default d u); "random" := VBool r ]}).
Proof.
  intros Hplain.
  assert (Hall : forallb plain [request_type] = true)
    by (cbn [forallb]; by rewrite Hplain).
  rewrite (parse_args_registered _ _ _ _ _
      {| help := "arbitrary MDM command (simple non-argument command)";
         positional := Some {| dest := "request_type"; nargs := nargs_one;
                               type := type_str |};
         defaults := {[ "func" := simple_command VNone ]} |});
    [|done|apply (plain_strings _ Hall)|done].
  by rewrite parse_subcommand_plain.
Qed.

Lemma parse_args_remove_profile (env : Env) (d : string) (u : option string)
    (r : bool) (identifier : string) :
  parse_args env d {| opt_help := false; opt_uuid := u; opt_random := r;
                      command := Some ("RemoveProfile", ["--"; identifier]) |} =
  Some (namespace {[ "identifier" := VStr identifier;
                     "func" := VRemoveProfile;
                     "uuid" := VStr (default d u); "random" := VBool r ]}).
Proof. reflexivity. Qed.

Lemma parse_args_remove_profile_plain (env : Env) (d : string)
    (u : option string) (r : bool) (identifier : string) :
  plain identifier = true →
  parse_args env d {| opt_help := false; opt_uuid := u; opt_random := r;
                      command := Some ("RemoveProfile", [identifier]) |} =
  Some (namespace {[ "identifier" := VStr identifier;
                     "func" := VRemoveProfile;
                     "uuid" := VStr (default d u); "random" := VBool r ]}).
Proof.
  intros Hplain.
  assert (Hall : forallb plain [identifier] = true)
    by (cbn [forallb]; by rewrite Hplain).
  rewrite (parse_args_registered _ _ _ _ _
      {| help := "RemoveProfile MDM command";
         positional := Some {| dest := "identifier"; nargs := nargs_one;
                               type := type_str |};
         defaults := {[ "func" := VRemoveProfile ]} |});
    [|done|apply (plain_strings _ Hall)|done].
  by rewrite parse_subcommand_plain.
Qed.

Lemma parse_args_dev_info (env : Env) (d : string) (u : option string)
    (r : bool) (queries : list string) :
  parse_args env d {| opt_help := false; opt_uuid := u; opt_random := r;
                      command := Some ("DeviceInformation", "--" :: queries) |} =
  Some (namespace {[ "query" := VList (VStr <$> queries);
                     "func" := VDevInfo;
                     "uuid" := VStr (default d u); "random" := VBool r ]}).
Proof.
  rewrite (parse_args_registered _ _ _ _ _
      {| help := "DeviceInformation MDM command";
         positional := Some {| dest := "query"; nargs := nargs_star;
                               type := type_str |};
         defaults := {[ "func" := VDevInfo ]} |});
    [|done..].
  rewrite parse_subcommand_separator. cbn [positional nargs type dest defaults].
  by rewrite convert_all_str.
Qed.

Lemma parse_args_dev_info_plain (env : Env) (d : string) (u : option string)
    (r : bool) (queries : list string) :
  forallb plain queries = true →
  parse_args env d {| opt_help := false; opt_uuid := u; opt_random := r;
                      command := Some ("DeviceInformation", queries) |} =
  Some (namespace {[ "query" := VList (VStr <$> queries);
                     "func" := VDevInfo;
                     "uuid" := VStr (default d u); "random" := VBool r ]}).
Proof.
  intros Hall.
  rewrite (parse_args_registered _ _ _ _ _
      {| help := "DeviceInformation MDM command";
         positional := Some {| dest := "query"; nargs := nargs_star;
                               type := type_str |};
         defaults := {[ "func" := VDevInfo ]} |});
    [|done|apply (plain_strings _ Hall)|done].
  rewrite parse_subcommand_plain by done.
  cbn [positional nargs type dest defaults].
  by rewrite convert_all_str.
Qed.

Lemma parse_args_install_profile (env : Env) (d : string) (u : option string)
    (r : bool) (path : string) (contents : list Byte.byte) :
  plain path = true →
  path ≠ "-" →
  files env !! path = Some contents →
  parse_args env d {| opt_help := false; opt_uuid := u; opt_random := r;
                      command := Some ("InstallProfile", [path]) |} =
  Some (namespace
          {[ "mobileconfig" := VFile {| f_bytes := contents; f_pos := 0 |};
             "func" := VInstallProfile;
             "uuid" := VStr (default d u); "random" := VBool r ]}).
Proof.
  intros Hplain Hpath Hfile.
  assert (Hall : forallb plain [path] = true)
    by (cbn [forallb]; by rewrite Hplain).
  rewrite (parse_args_registered _ _ _ _ _
      {| help := "InstallProfile MDM command";
         positional := Some {| dest := "mobileconfig"; nargs := nargs_one;
                               type := FileType_rb |};
         defaults := {[ "func" := VInstallProfile ]} |});
    [|done|apply (plain_strings _ Hall)|done].
  rewrite parse_subcommand_plain by done.
  cbn [positional nargs type dest defaults]. unfold convert.
  apply String.eqb_neq in Hpath. by rewrite Hpath, Hfile.
Qed.

(** Every accepted command line gives one of the namespaces of
    [parsed_attrs], and asks for no help. *)
Lemma parse_args_namespace (env : Env) (d : string) (inv : Invocation)
    (args : gmap string pyval) :
  parse_args env d inv = Some (namespace args) →
  asks_help inv = false ∧
  ∃ attrs,
    parsed_attrs env (fst <$> command inv) attrs ∧
    args = attrs ∪ {[ "uuid" := VStr (default d (opt_uuid inv));
                      "random" := VBool (opt_random inv) ]}.
Proof.
  destruct inv as [h u r [[name arg_strings]|]]; unfold parse_args, asks_help;
    cbn [command opt_uuid opt_random opt_help fmap option_fmap option_map fst].
  2: { destruct h; [done|]. intros [= <-]. split; [done|].
       exists ∅. split; [constructor|]. by rewrite (left_id_L ∅ (∪)). }
  destruct (plain name && modelled arg_strings); [|done].
  destruct h; [done|]. cbn [orb].
  rewrite subparsers_lookup. case_bool_decide as Hin.
  - unfold parse_subcommand, simple_parser. cbn [positional defaults].
    destruct (existsb is_help (before_separator arg_strings)); [done|].
    destruct arg_strings; [|done]. intros [= <-].
    split; [done|]. eexists. split; [by constructor | done].
  - unfold with_arguments, command_subparser, rem_prof_subparser,
      inst_prof_subparser, dev_info_subparser.
    rewrite !lookup_insert. repeat case_decide; try done; subst name;
      unfold parse_subcommand; cbn [positional nargs type dest defaults];
      destruct (existsb is_help (before_separator arg_strings)).
    + destruct (before_help _); [done|]. by destruct (convert _ _ _).
    + destruct (one_argument arg_strings) as [[s extras]|]; [|done].
      cbn [convert]. destruct extras; [|done]. intros [= <-].
      split; [done|]. eexists. split; [by constructor | done].
    + destruct (before_help _); [done|]. by destruct (convert _ _ _).
    + destruct (one_argument arg_strings) as [[s extras]|]; [|done].
      cbn [convert]. destruct extras; [|done]. intros [= <-].
      split; [done|]. eexists. split; [by constructor | done].
    + destruct (before_help _); [done|]. by destruct (convert _ _ _).
    + destruct (one_argument arg_strings) as [[s extras]|]; [|done].
      unfold convert. destruct (String.eqb s "-").
      * destruct extras; [|done]. intros [= <-].
        split; [done|]. eexists. split; [by constructor | done].
      * destruct (files env !! s) as [contents|] eqn:Hfile; [|done].
        destruct extras; [|done]. intros [= <-].
        split; [done|]. eexists. split; [by econstructor | done].
    + destruct (before_help _); [done|]. by rewrite convert_all_str.
    + rewrite convert_all_str. intros [= <-].
      split; [done|]. eexists. split; [by constructor | done].
Qed.

(** The attributes every parsed namespace has: the two global options, and
    [func] exactly when a sub-command was named. *)
Lemma parse_args_globals (env : Env) (d : string) (inv : Invocation)
    (args : gmap string pyval) :
  parse_args env d inv = Some (namespace args) →
  args !! "uuid" = Some (VStr (default d (opt_uuid inv))) ∧
  args !! "random" = Some (VBool (opt_random inv)) ∧
  (is_Some (args !! "func") ↔ is_Some (command inv)).
Proof.
  intros (_ & attrs & Hattrs & ->)%parse_args_namespace.
  destruct (command inv) as [[name arg_strings]|];
    cbn [fmap option_fmap option_map fst] in Hattrs;
    inversion Hattrs; subst; (split; [done|]); (split; [done|]);
    split; try done; eauto.
  by intros [? ?].
Qed.

(** ** The run *)

(** A property list is written only as the last step of [run], from the
    envelope built on the parsed namespace. *)
Lemma main_emits (env : Env) (inv : Invocation) (o : Outcome)
    (c : gmap string pyval) :
  main env inv = Some o →
  plist_document c ∈ output o →
  ∃ args,
    parse_args env (uuid.str (uuid.uuid4 (urandom16 env))) inv =
      Some (namespace args) ∧
    envelope env args = Ok c ∧
    o = {| output := [plist_document c]; status := 0 |}.
Proof.
  unfold main.
  destruct (parse_args _ _ _) as [[args|e|[name|]]|]; [| | | |done];
    intros [= <-]; cbn [output].
  2-4: by intros [=]%list_elem_of_singleton.
  intros Hc. exists args. split; [done|]. revert Hc. unfold run.
  destruct (getattr args "random") as [random|e]; cbn [output].
  2: by intros [=]%list_elem_of_singleton.
  destruct (_ || _); cbn [output].
  { by intros [=]%list_elem_of_singleton. }
  destruct (envelope env args) as [c'|e]; cbn [output].
  2: by intros [=]%list_elem_of_singleton.
  unfold dump. destruct (plistlib.writable _); cbn [output].
  - by intros [= ->]%list_elem_of_singleton.
  - intros [Hc|Hc%list_elem_of_singleton]%elem_of_cons; discriminate.
Qed.

(** The envelope is built from the [uuid] attribute and the body that the
    function under [func] returns; with [--random] that function is the
    simple command of one of the read-only request types. *)
Lemma envelope_inv (env : Env) (args c : gmap string pyval) :
  envelope env args = Ok c →
  ∃ (random uuid func : pyval) (args' body : gmap string pyval),
    args !! "random" = Some random ∧
    (if truthy random
     then ∃ name, name ∈ read_only_commands ∧
                  args' = <["func" := simple_command (VStr name)]> args
     else args' = args) ∧
    args' !! "uuid" = Some uuid ∧
    args' !! "func" = Some func ∧
    call env func args' = Ok body ∧
    c = {[ "CommandUUID" := uuid; "Command" := VDict body ]}.
Proof.
  unfold envelope, getattr.
  destruct (args !! "random") as [random|] eqn:Hrandom; [|done].
  cbn [mbind result_bind].
  destruct (truthy random) eqn:Htruthy.
  - unfold random.choice.
    destruct (read_only_commands !! _) as [name|] eqn:Hname; [|done].
    cbn [mbind result_bind].
    set (args' := <["func" := simple_command (VStr name)]> args).
    destruct (args' !! "uuid") as [uuid|] eqn:Huuid; [|done].
    destruct (args' !! "func") as [func|] eqn:Hfunc; [|done].
    cbn [mbind result_bind].
    destruct (call env func args') as [body|] eqn:Hbody; [|done].
    cbn [mbind result_bind]. intros [= <-].
    exists random, uuid, func, args', body. rewrite Htruthy.
    repeat split; try done.
    exists name. split; [|done]. by eapply list_elem_of_lookup_2.
  - cbn [mbind result_bind].
    destruct (args !! "uuid") as [uuid|] eqn:Huuid; [|done].
    destruct (args !! "func") as [func|] eqn:Hfunc; [|done].
    cbn [mbind result_bind].
    destruct (call env func args) as [body|] eqn:Hbody; [|done].
    cbn [mbind result_bind]. intros [= <-].
    exists random, uuid, func, args, body. rewrite Htruthy.
    by repeat split.
Qed.

(** ** The builders *)

(** A closure that captured a name ignores the namespace. *)
Lemma simple_command_fixed (env : Env) (name : string)
    (args : gmap string pyval) :
  call env (simple_command (VStr name)) args =
  Ok {[ "RequestType" := VStr name ]}.
Proof. reflexivity. Qed.

(** A closure that captured [None] takes the name from the namespace, and
    keeps it in the captured variable. *)
Lemma simple_command_generic (v : pyval) (args : gmap string pyval) :
  args !! "request_type" = Some v →
  simple_command_body VNone args = (v, {[ "RequestType" := v ]}).
Proof. intros Hv. unfold simple_command_body. by rewrite Hv. Qed.

(** ** The registered sub-commands, counted *)

Lemma fixed_commands_NoDup : NoDup fixed_commands.
Proof. compute_done. Qed.

Lemma no_argument_subcommands_lookup (name : string) (p : ArgumentParser) :
  no_argument_subcommands !! name = Some p →
  name ∈ fixed_commands ∧ p = simple_parser name.
Proof.
  intros [Hp Hpos]%map_lookup_filter_Some. cbn in Hpos.
  rewrite subparsers_lookup in Hp. case_bool_decide.
  - by injection Hp as <-.
  - revert Hp. unfold with_arguments, command_subparser, rem_prof_subparser,
      inst_prof_subparser, dev_info_subparser.
    rewrite !lookup_insert.
    repeat case_decide; try done; intros [= <-]; done.
Qed.

Lemma no_argument_subcommands_dom :
  dom no_argument_subcommands = list_to_set fixed_commands.
Proof.
  apply set_eq. intros name.
  rewrite elem_of_dom, elem_of_list_to_set. split.
  - intros [p Hp]. by apply no_argument_subcommands_lookup in Hp as [? _].
  - intros Hin. exists (simple_parser name).
    apply map_lookup_filter_Some. split; [|done].
    by rewrite subparsers_lookup, bool_decide_eq_true_2.
Qed.

(** ** The command UUID of a run that writes a property list *)

Lemma command_uuid_of_run (env : Env) (inv : Invocation) (o : Outcome)
    (c : gmap string pyval) :
  main env inv = Some o →
  plist_document c ∈ output o →
  c !! "CommandUUID" =
  Some (VStr (default (uuid.str (uuid.uuid4 (urandom16 env))) (opt_uuid inv))).
Proof.
  intros Hmain Hc.
  destruct (main_emits _ _ _ _ Hmain Hc) as (args & Hparse & Henv & _).
  apply parse_args_globals in Hparse as (Huuid & _ & _).
  apply envelope_inv in Henv
    as (random & uuid & func & args' & body & _ & Hsel & Huuid' & _ & _ & ->).
  rewrite lookup_insert_eq. rewrite <- Huuid', <- Huuid.
  destruct (truthy random); [|by subst].
  destruct Hsel as (name & _ & ->). by rewrite lookup_insert_ne.
Qed.

(** * The claims of the specification *)

(** C1, as amended.  In every run that writes a property list, the
    [CommandUUID] of the envelope is a string: when no [-u]/[--uuid] was
    given it is the generated string, and that is a syntactically valid
    UUID string; when one was given it is the given string unchanged, so
    that it is valid exactly if the given string is: the script passes the
    user's string on without checking it. *)
Theorem command_uuid_valid_when_generated (env : Env) (inv : Invocation)
    (o : Outcome) (c : gmap string pyval) :
  main env inv = Some o →
  plist_document c ∈ output o →
  ∃ s, c !! "CommandUUID" = Some (VStr s) ∧
       match opt_uuid inv with
       | None => s = uuid.str (uuid.uuid4 (urandom16 env)) ∧
                 uuid.is_uuid_string s = true
       | Some u => s = u ∧ uuid.is_uuid_string s = uuid.is_uuid_string u
       end.
Proof.
  intros Hmain Hc. pose proof (command_uuid_of_run _ _ _ _ Hmain Hc) as Hs.
  eexists. split; [exact Hs|].
  destruct (opt_uuid inv) as [u|]; cbn [default].
  - by split.
  - split; [reflexivity | apply str_is_uuid_string].
Qed.

Lemma command_uuid_valid_when_generated_witness :
  main example_env
       {| opt_help := false; opt_uuid := None; opt_random := false;
          command := Some ("ProfileList", []) |} =
  Some {| output := [plist_document
            {[ "CommandUUID" := VStr "00000000-0000-4000-8000-000000000000";
               "Command" := VDict {[ "RequestType" := VStr "ProfileList" ]} ]}];
          status := 0 |} ∧
  ∃ s, ({[ "CommandUUID" := VStr "00000000-0000-4000-8000-000000000000";
           "Command" := VDict {[ "RequestType" := VStr "ProfileList" ]} ]}
        : gmap string pyval) !! "CommandUUID" = Some (VStr s) ∧
       s = uuid.str (uuid.uuid4 (urandom16 example_env)) ∧
       uuid.is_uuid_string s = true.
Proof.
  assert (Hmain : main example_env
       {| opt_help := false; opt_uuid := None; opt_random := false;
          command := Some ("ProfileList", []) |} =
    Some {| output := [plist_document
            {[ "CommandUUID" := VStr "00000000-0000-4000-8000-000000000000";
               "Command" := VDict {[ "RequestType" := VStr "ProfileList" ]} ]}];
          status := 0 |}) by (vm_compute; reflexivity).
  split; [exact Hmain|].
  exact (command_uuid_valid_when_generated _ _ _ _ Hmain
           (list_elem_of_here _ _)).
Defined.

(** C1, as stated, fails: with [--uuid=not-a-uuid ProfileList] the script
    writes an envelope whose [CommandUUID] is ["not-a-uuid"], which is not
    a UUID string. *)
Lemma command_uuid_not_validated :
  main example_env
       {| opt_help := false; opt_uuid := Some "not-a-uuid";
          opt_random := false; command := Some ("ProfileList", []) |} =
  Some {| output := [plist_document
            {[ "CommandUUID" := VStr "not-a-uuid";
               "Command" := VDict {[ "RequestType" := VStr "ProfileList" ]} ]}];
          status := 0 |} ∧
  uuid.is_uuid_string "not-a-uuid" = false.
Proof. split; reflexivity. Qed.




(** C3.  Each of the fixed sub-commands, and the generic sub-command
    [command] with any string whatever as its request type, makes the
    script build the body [{RequestType: name}] and nothing else, and hand
    it to the writer in the envelope.  Every string reaches the generic
    builder after the separator [--], and a string that is an argument
    also without it; the builder itself takes whatever the namespace holds
    under [request_type]. *)
Theorem simple_command_body_exact :
  Forall (λ name, ∀ env u,
    main env {| opt_help := false; opt_uuid := u; opt_random := false;
                command := Some (name, []) |} =
    Some (dump {[ "CommandUUID" :=
                    VStr (default (uuid.str (uuid.uuid4 (urandom16 env))) u);
                  "Command" := VDict {[ "RequestType" := VStr name ]} ]}))
    fixed_commands ∧
  ∀ env u (request_type : string),
    (∀ args, args !! "request_type" = Some (VStr request_type) →
             call env (simple_command VNone) args =
             Ok {[ "RequestType" := VStr request_type ]}) ∧
    main env {| opt_help := false; opt_uuid := u; opt_random := false;
                command := Some ("command", ["--"; request_type]) |} =
    Some (dump {[ "CommandUUID" :=
                    VStr (default (uuid.str (uuid.uuid4 (urandom16 env))) u);
                  "Command" := VDict {[ "RequestType" :=
                                          VStr request_type ]} ]}) ∧
    (plain request_type = true →
     main env {| opt_help := false; opt_uuid := u; opt_random := false;
                 command := Some ("command", [request_type]) |} =
     Some (dump {[ "CommandUUID" :=
                     VStr (default (uuid.str (uuid.uuid4 (urandom16 env))) u);
                   "Command" := VDict {[ "RequestType" :=
                                           VStr request_type ]} ]})).
Proof.
  split.
  - apply Forall_forall. intros name Hin env u. unfold main.
    by rewrite parse_args_simple.
  - intros env u request_type. split; [|split].
    + intros args Hargs. cbn [call simple_command].
      by rewrite (simple_command_generic (VStr request_type)).
    + unfold main. by rewrite parse_args_generic.
    + intros Hplain. unfold main. by rewrite parse_args_generic_plain.
Qed.

Lemma simple_command_body_exact_witness :
  plain "EraseDevice" = true ∧
  main example_env
       {| opt_help := false; opt_uuid := None; opt_random := false;
          command := Some ("command", ["EraseDevice"]) |} =
  Some (dump {[ "CommandUUID" :=
                  VStr (default (uuid.str (uuid.uuid4 (urandom16 example_env)))
                          None);
                "Command" := VDict {[ "RequestType" :=
                                        VStr "EraseDevice" ]} ]}).
Proof.
  split; [reflexivity|].
  exact (proj2 (proj2 (proj2 simple_command_body_exact example_env None
                         "EraseDevice")) eq_refl).
Defined.

(** C4.  [DeviceInformation] without query strings gives a body without
    the key [Queries]; with query strings the body is
    [{RequestType: "DeviceInformation", Queries: queries}], the strings in
    the order given.  Any strings can be given after the separator [--],
    and strings that are arguments also without it. *)
Theorem dev_info_queries_only_when_given (env : Env) (u : option string)
    (queries : list string) :
  ∃ body : gmap string pyval,
    match queries with
    | [] => body = {[ "RequestType" := VStr "DeviceInformation" ]} ∧
            body !! "Queries" = None
    | _ :: _ => body = {[ "RequestType" := VStr "DeviceInformation";
                          "Queries" := VList (VStr <$> queries) ]}
    end ∧
    (∀ args, args !! "query" = Some (VList (VStr <$> queries)) →
             dev_info args = Ok body) ∧
    main env {| opt_help := false; opt_uuid := u; opt_random := false;
                command := Some ("DeviceInformation", "--" :: queries) |} =
    Some (dump {[ "CommandUUID" :=
                    VStr (default (uuid.str (uuid.uuid4 (urandom16 env))) u);
                  "Command" := VDict body ]}) ∧
    (forallb plain queries = true →
     main env {| opt_help := false; opt_uuid := u; opt_random := false;
                 command := Some ("DeviceInformation", queries) |} =
     Some (dump {[ "CommandUUID" :=
                     VStr (default (uuid.str (uuid.uuid4 (urandom16 env))) u);
                   "Command" := VDict body ]})).
Proof.
  destruct queries as [|q queries].
  - eexists. split; [split; [reflexivity|done]|]. split; [|split].
    + intros args Hargs. unfold dev_info. by rewrite Hargs.
    + unfold main. by rewrite parse_args_dev_info.
    + intros Hplain. unfold main. by rewrite parse_args_dev_info_plain.
  - eexists. split; [reflexivity|]. split; [|split].
    + intros args Hargs. unfold dev_info. by rewrite Hargs.
    + unfold main. by rewrite parse_args_dev_info.
    + intros Hplain. unfold main. by rewrite parse_args_dev_info_plain.
Qed.

Lemma dev_info_queries_only_when_given_witness :
  forallb plain ["Model"; "OSVersion"] = true ∧
  main example_env
       {| opt_help := false; opt_uuid := None; opt_random := false;
          command := Some ("DeviceInformation", ["Model"; "OSVersion"]) |} =
  Some {| output := [plist_document
            {[ "CommandUUID" := VStr "00000000-0000-4000-8000-000000000000";
               "Command" := VDict
                 {[ "RequestType" := VStr "DeviceInformation";
                    "Queries" := VList [VStr "Model"; VStr "OSVersion"] ]} ]}];
          status := 0 |}.
Proof.
  split; [reflexivity|].
  destruct (dev_info_queries_only_when_given example_env None
              ["Model"; "OSVersion"]) as (body & -> & _ & _ & Hmain).
  exact (Hmain eq_refl).
Defined.

(** C5.  With [--random] and no sub-command, whatever number the generator
    draws, the request type of the body is one of [SecurityInfo],
    [CertificateList], [ProfileList] and [ProvisioningProfileList]. *)
Theorem random_selects_read_only (env : Env) (u : option string) :
  ∃ name : string,
    name ∈ ({[ "SecurityInfo"; "CertificateList"; "ProfileList";
               "ProvisioningProfileList" ]} : gset string) ∧
    main env {| opt_help := false; opt_uuid := u; opt_random := true;
                command := None |} =
    Some (dump {[ "CommandUUID" :=
                    VStr (default (uuid.str (uuid.uuid4 (urandom16 env))) u);
                  "Command" := VDict {[ "RequestType" := VStr name ]} ]}).
Proof.
  unfold main. rewrite parse_args_no_command.
  unfold run, envelope, getattr, hasattr, random.choice.
  assert (Hlt : (randbelow env mod 4 < 4)%nat) by (apply Nat.mod_upper_bound; lia).
  change (length read_only_commands) with 4%nat.
  destruct (randbelow env mod 4)%nat as [|[|[|[|n]]]]; [| | | |lia].
  - exists "SecurityInfo". split; [set_solver|reflexivity].
  - exists "CertificateList". split; [set_solver|reflexivity].
  - exists "ProfileList". split; [set_solver|reflexivity].
  - exists "ProvisioningProfileList". split; [set_solver|reflexivity].
Qed.

(** C6, as amended.  The script registers exactly 21 sub-commands without
    arguments, the 21 distinct names of the list in [main]; each of them
    is registered with the help line of its name and with the closure that
    builds [{RequestType: name}]. *)
Theorem twenty_one_fixed_subcommands :
  size no_argument_subcommands = 21%nat ∧
  length fixed_commands = 21%nat ∧
  NoDup fixed_commands ∧
  dom no_argument_subcommands = list_to_set fixed_commands ∧
  map_Forall (λ name p,
    registered_func p = Some (simple_command (VStr name)) ∧
    ∀ env args, call env (simple_command (VStr name)) args =
                Ok {[ "RequestType" := VStr name ]})
    no_argument_subcommands.
Proof.
  assert (Hsize : size (dom no_argument_subcommands) = 21%nat).
  { rewrite no_argument_subcommands_dom, size_list_to_set.
    - reflexivity.
    - apply fixed_commands_NoDup. }
  rewrite size_dom in Hsize.
  split; [exact Hsize|]. split; [reflexivity|].
  split; [apply fixed_commands_NoDup|].
  split; [apply no_argument_subcommands_dom|].
  intros name p [_ ->]%no_argument_subcommands_lookup.
  split; [reflexivity|]. intros env args. reflexivity.
Qed.

(** C6, as stated, fails: the number of sub-commands registered without
    arguments is not 20, and neither is the length of the list that
    [main] registers them from. *)
Lemma not_twenty_fixed_subcommands :
  size no_argument_subcommands ≠ 20%nat ∧ length fixed_commands ≠ 20%nat.
Proof.
  assert (Hsize : size (dom no_argument_subcommands) = 21%nat).
  { rewrite no_argument_subcommands_dom, size_list_to_set.
    - reflexivity.
    - apply fixed_commands_NoDup. }
  rewrite size_dom in Hsize. rewrite Hsize. split; discriminate.
Qed.

(** C7, where the code falls short of it.  Where [plistlib] has no class
    [Data] (CPython 3.9 and later), [InstallProfile] on the path of a file
    that can be opened builds no body at all: the run ends in the
    traceback of an [AttributeError], with status 1, and nothing is
    written. *)
Theorem install_profile_without_Data (env : Env) (u : option string)
    (path : string) (contents : list Byte.byte) :
  plistlib_has_Data env = false →
  plain path = true →
  path ≠ "-" →
  files env !! path = Some contents →
  main env {| opt_help := false; opt_uuid := u; opt_random := false;
              command := Some ("InstallProfile", [path]) |} =
  Some {| output := [traceback (AttributeError "Data")]; status := 1 |}.
Proof.
  intros Hdata Hplain Hpath Hfile. unfold main.
  rewrite (parse_args_install_profile _ _ _ _ _ contents) by done.
  destruct env as [rnd n fs inp data]. cbn [plistlib_has_Data] in Hdata.
  subst data. reflexivity.
Qed.

Lemma install_profile_without_Data_witness :
  plistlib_has_Data example_env_311 = false ∧
  plain "wifi.mobileconfig" = true ∧
  "wifi.mobileconfig" ≠ "-" ∧
  files example_env_311 !! "wifi.mobileconfig" =
    Some [Byte.x3c; Byte.x3f; Byte.x78] ∧
  main example_env_311
       {| opt_help := false; opt_uuid := None; opt_random := false;
          command := Some ("InstallProfile", ["wifi.mobileconfig"]) |} =
  Some {| output := [traceback (AttributeError "Data")]; status := 1 |}.
Proof.
  assert (Hpath : "wifi.mobileconfig" ≠ "-") by discriminate.
  split; [reflexivity|]. split; [reflexivity|]. split; [exact Hpath|].
  split; [reflexivity|].
  exact (install_profile_without_Data example_env_311 None
           "wifi.mobileconfig" _ eq_refl eq_refl Hpath eq_refl).
Defined.

(** C8.  In every run that writes a property list, the [CommandUUID] of
    the envelope is the string given with [-u]/[--uuid] when there is one.
    Otherwise it is the string of the version 4 UUID made from the random
    bytes of this run: a well-formed UUID string that carries each random
    bit of those bytes, so that random bytes differing in any of the 122
    random bits would have given another string. *)
Theorem command_uuid_supplied_or_generated (env : Env) (inv : Invocation)
    (o : Outcome) (c : gmap string pyval) :
  main env inv = Some o →
  plist_document c ∈ output o →
  c !! "CommandUUID" =
    Some (VStr match opt_uuid inv with
               | Some u => u
               | None => uuid.str (uuid.uuid4 (urandom16 env))
               end) ∧
  (opt_uuid inv = None →
   uuid.is_uuid_string (uuid.str (uuid.uuid4 (urandom16 env))) = true ∧
   (∀ i, random_bit i = true →
         Z.testbit (uuid.uuid4 (urandom16 env)) i =
         Z.testbit (urandom16 env) i) ∧
   ∀ rnd i, random_bit i = true →
            Z.testbit rnd i ≠ Z.testbit (urandom16 env) i →
            c !! "CommandUUID" ≠ Some (VStr (uuid.str (uuid.uuid4 rnd)))).
Proof.
  intros Hmain Hc. pose proof (command_uuid_of_run _ _ _ _ Hmain Hc) as Hs.
  split; [rewrite Hs; by destruct (opt_uuid inv)|].
  intros Hnone. rewrite Hnone in Hs. cbn [default] in Hs.
  split; [apply str_is_uuid_string|]. split.
  - intros i Hi. by apply uuid4_random_bit.
  - intros rnd i Hi Hne. rewrite Hs. intros Heq.
    apply (uuid4_fresh rnd (urandom16 env) i Hi Hne). congruence.
Qed.

Lemma command_uuid_supplied_or_generated_witness :
  main example_env
       {| opt_help := false; opt_uuid := None; opt_random := false;
          command := Some ("RemoveProfile", ["com.example.profile"]) |} =
  Some {| output := [plist_document
            {[ "CommandUUID" := VStr "00000000-0000-4000-8000-000000000000";
               "Command" := VDict
                 {[ "RequestType" := VStr "RemoveProfile";
                    "Identifier" := VStr "com.example.profile" ]} ]}];
          status := 0 |} ∧
  ({[ "CommandUUID" := VStr "00000000-0000-4000-8000-000000000000";
      "Command" := VDict {[ "RequestType" := VStr "RemoveProfile";
                            "Identifier" := VStr "com.example.profile" ]} ]}
   : gmap string pyval) !! "CommandUUID" =
    Some (VStr (uuid.str (uuid.uuid4 (urandom16 example_env)))) ∧
  ({[ "CommandUUID" := VStr "00000000-0000-4000-8000-000000000000";
      "Command" := VDict {[ "RequestType" := VStr "RemoveProfile";
                            "Identifier" := VStr "com.example.profile" ]} ]}
   : gmap string pyval) !! "CommandUUID" ≠
    Some (VStr (uuid.str (uuid.uuid4 1))).
Proof.
  assert (Hmain : main example_env
       {| opt_help := false; opt_uuid := None; opt_random := false;
          command := Some ("RemoveProfile", ["com.example.profile"]) |} =
    Some {| output := [plist_document
            {[ "CommandUUID" := VStr "00000000-0000-4000-8000-000000000000";
               "Command" := VDict
                 {[ "RequestType" := VStr "RemoveProfile";
                    "Identifier" := VStr "com.example.profile" ]} ]}];
          status := 0 |}) by (vm_compute; reflexivity).
  split; [exact Hmain|].
  destruct (command_uuid_supplied_or_generated _ _ _ _ Hmain
              (list_elem_of_here _ _)) as [Hs Hfresh].
  split; [exact Hs|].
  destruct (Hfresh eq_refl) as (_ & _ & Hother).
  apply (Hother 1 0); [reflexivity | discriminate].
Defined.

(** C9.  [RemoveProfile] with any string as identifier gives the body
    [{RequestType: "RemoveProfile", Identifier: identifier}]; the string
    is not examined.  Every string reaches the builder after the separator
    [--], and a string that is an argument also without it. *)
Theorem remove_profile_body (env : Env) (u : option string)
    (identifier : string) :
  (∀ args, args !! "identifier" = Some (VStr identifier) →
           remove_profile args =
           Ok {[ "RequestType" := VStr "RemoveProfile";
                 "Identifier" := VStr identifier ]}) ∧
  main env {| opt_help := false; opt_uuid := u; opt_random := false;
              command := Some ("RemoveProfile", ["--"; identifier]) |} =
  Some (dump {[ "CommandUUID" :=
                  VStr (default (uuid.str (uuid.uuid4 (urandom16 env))) u);
                "Command" := VDict {[ "RequestType" := VStr "RemoveProfile";
                                      "Identifier" := VStr identifier ]} ]}) ∧
  (plain identifier = true →
   main env {| opt_help := false; opt_uuid := u; opt_random := false;
               command := Some ("RemoveProfile", [identifier]) |} =
   Some (dump {[ "CommandUUID" :=
                   VStr (default (uuid.str (uuid.uuid4 (urandom16 env))) u);
                 "Command" := VDict {[ "RequestType" := VStr "RemoveProfile";
                                       "Identifier" := VStr identifier ]} ]})).
Proof.
  split; [|split].
  - intros args Hargs. unfold remove_profile, getattr. by rewrite Hargs.
  - unfold main. by rewrite parse_args_remove_profile.
  - intros Hplain. unfold main. by rewrite parse_args_remove_profile_plain.
Qed.

Lemma remove_profile_body_witness :
  plain "com.example.profile" = true ∧
  main example_env
       {| opt_help := false; opt_uuid := None; opt_random := false;
          command := Some ("RemoveProfile", ["com.example.profile"]) |} =
  Some (dump {[ "CommandUUID" :=
                  VStr (default (uuid.str (uuid.uuid4 (urandom16 example_env)))
                          None);
                "Command" := VDict
                  {[ "RequestType" := VStr "RemoveProfile";
                     "Identifier" := VStr "com.example.profile" ]} ]}).
Proof.
  split; [reflexivity|].
  exact (proj2 (proj2 (remove_profile_body example_env None
                         "com.example.profile")) eq_refl).
Defined.

(** C10.  The dictionary of every property list written has the two keys
    [CommandUUID] and [Command] and no other, and under [Command] the body
    that the selected function returned on the namespace: the function
    under [func] of the parsed namespace, or with [--random] the simple
    command of a read-only request type. *)
Theorem envelope_two_keys (env : Env) (inv : Invocation) (o : Outcome)
    (c : gmap string pyval) :
  main env inv = Some o →
  plist_document c ∈ output o →
  ∃ (parsed args : gmap string pyval) (uuid func : pyval)
    (body : gmap string pyval),
    parse_args env (uuid.str (uuid.uuid4 (urandom16 env))) inv =
      Some (namespace parsed) ∧
    (if opt_random inv
     then ∃ name, name ∈ read_only_commands ∧
                  args = <["func" := simple_command (VStr name)]> parsed
     else args = parsed) ∧
    args !! "uuid" = Some uuid ∧
    args !! "func" = Some func ∧
    call env func args = Ok body ∧
    c = {[ "CommandUUID" := uuid; "Command" := VDict body ]} ∧
    dom c = {[ "CommandUUID"; "Command" ]}.
Proof.
  intros Hmain Hc.
  destruct (main_emits _ _ _ _ Hmain Hc) as (parsed & Hparse & Henv & _).
  pose proof (parse_args_globals _ _ _ _ Hparse) as (_ & Hrandom & _).
  apply envelope_inv in Henv
    as (random & uuid & func & args & body & Hr & Hsel & Hu & Hf & Hb & ->).
  rewrite Hrandom in Hr. injection Hr as <-. cbn [truthy] in Hsel.
  exists parsed, args, uuid, func, body.
  split; [exact Hparse|]. split; [exact Hsel|]. split; [exact Hu|].
  split; [exact Hf|]. split; [exact Hb|]. split; [reflexivity|].
  rewrite dom_insert_L, dom_singleton_L. set_solver.
Qed.

Lemma envelope_two_keys_witness :
  main example_env
       {| opt_help := false; opt_uuid := None; opt_random := false;
          command := Some ("DeviceInformation", ["Model"; "OSVersion"]) |} =
  Some {| output := [plist_document
            {[ "CommandUUID" := VStr "00000000-0000-4000-8000-000000000000";
               "Command" := VDict
                 {[ "RequestType" := VStr "DeviceInformation";
                    "Queries" := VList [VStr "Model"; VStr "OSVersion"] ]} ]}];
          status := 0 |} ∧
  dom ({[ "CommandUUID" := VStr "00000000-0000-4000-8000-000000000000";
          "Command" := VDict {[ "RequestType" := VStr "DeviceInformation";
                                "Queries" := VList [VStr "Model";
                                                    VStr "OSVersion"] ]} ]}
       : gmap string pyval) = {[ "CommandUUID"; "Command" ]}.
Proof.
  assert (Hmain : main example_env
       {| opt_help := false; opt_uuid := None; opt_random := false;
          command := Some ("DeviceInformation", ["Model"; "OSVersion"]) |} =
    Some {| output := [plist_document
            {[ "CommandUUID" := VStr "00000000-0000-4000-8000-000000000000";
               "Command" := VDict
                 {[ "RequestType" := VStr "DeviceInformation";
                    "Queries" := VList [VStr "Model"; VStr "OSVersion"] ]} ]}];
          status := 0 |}) by (vm_compute; reflexivity).
  split; [exact Hmain|].
  destruct (envelope_two_keys _ _ _ _ Hmain (list_elem_of_here _ _))
    as (? & ? & ? & ? & ? & _ & _ & _ & _ & _ & _ & Hdom).
  exact Hdom.
Defined.

(** * Further properties of the script *)

(** ** What the property list writer accepts *)

Lemma writable_dict (d : gmap string pyval) :
  plistlib.writable (VDict d) = true ↔
  map_Forall (λ k v, plistlib.writable_string k = true ∧
                     plistlib.writable v = true) d.
Proof.
  cbn [plistlib.writable].
  apply (map_fold_weak_ind (λ r m, r = true ↔
    map_Forall (λ k v, plistlib.writable_string k = true ∧
                       plistlib.writable v = true) m)).
  - split; [intros _; apply map_Forall_empty | done].
  - intros k v m r Hk IH. rewrite map_Forall_insert by done.
    rewrite !andb_true_iff, IH. tauto.
Qed.

Lemma hex_not_control (c : ascii) :
  uuid.is_hex c = true → plistlib.is_control c = false.
Proof.
  destruct c as [[] [] [] [] [] [] [] []]; try reflexivity; discriminate.
Qed.

Lemma well_formed_writable (i : nat) (cs : list ascii) :
  uuid.well_formed_from i cs = true →
  forallb (λ c, negb (plistlib.is_control c)) cs = true.
Proof.
  revert i. induction cs as [|c cs IH]; intros i; [done|].
  cbn [uuid.well_formed_from forallb].
  intros [Hc Hcs]%andb_prop. rewrite (IH _ Hcs), andb_true_r.
  destruct (uuid.hyphen_at i).
  - apply Ascii.eqb_eq in Hc as ->. reflexivity.
  - by rewrite hex_not_control.
Qed.

(** A well-formed UUID string has no control character. *)
Lemma uuid_string_writable (s : string) :
  uuid.is_uuid_string s = true → plistlib.writable_string s = true.
Proof.
  unfold uuid.is_uuid_string. intros [_ Hs]%andb_prop.
  by eapply well_formed_writable.
Qed.

(** The envelope of a simple command is written when the two strings in it
    have no control character. *)
Lemma dump_simple (s name : string) :
  plistlib.writable_string s = true →
  plistlib.writable_string name = true →
  dump {[ "CommandUUID" := VStr s;
          "Command" := VDict {[ "RequestType" := VStr name ]} ]} =
  {| output := [plist_document
       {[ "CommandUUID" := VStr s;
          "Command" := VDict {[ "RequestType" := VStr name ]} ]}];
     status := 0 |}.
Proof.
  intros Hs Hname. unfold dump.
  assert (Hw : plistlib.writable
    (VDict {[ "CommandUUID" := VStr s;
              "Command" := VDict {[ "RequestType" := VStr name ]} ]}) = true).
  { apply writable_dict. apply map_Forall_insert_2; [by split|].
    apply map_Forall_singleton. split; [done|].
    apply writable_dict. by apply map_Forall_singleton. }
  by rewrite Hw.
Qed.

Lemma fixed_commands_writable :
  Forall (λ name, plistlib.writable_string name = true) fixed_commands.
Proof. repeat constructor. Qed.

(** ** Exit status and output *)

(** X1.  A run ends with status 0, 1 or 2.  A whole property list is never
    accompanied by any other output and comes with status 0, and the
    status is 0 exactly when the output is one whole property list, or
    when [-h]/[--help] was given and the output is a help. *)
Theorem status_zero_iff_document_or_help (env : Env) (inv : Invocation)
    (o : Outcome) :
  main env inv = Some o →
  (status o = 0 ∨ status o = 1 ∨ status o = 2) ∧
  (∀ c, plist_document c ∈ output o →
        o = {| output := [plist_document c]; status := 0 |}) ∧
  (status o = 0 ↔
   (∃ c, output o = [plist_document c]) ∨
   asks_help inv = true ∧
   (output o = [print_help] ∨ ∃ name, output o = [print_subcommand_help name])).
Proof.
  intros Hmain. split; [|split].
  - revert Hmain. unfold main.
    destruct (parse_args _ _ _) as [[args|e|[name|]]|]; [| | | |done];
      intros [= <-]; cbn [status]; auto.
    unfold run. destruct (getattr args "random"); cbn [status]; auto.
    destruct (_ || _); cbn [status]; auto.
    destruct (envelope env args); cbn [status]; auto.
    unfold dump. destruct (plistlib.writable _); cbn [status]; auto.
  - intros c Hc.
    by destruct (main_emits _ _ _ _ Hmain Hc) as (_ & _ & _ & ->).
  - revert Hmain. unfold main.
    destruct (parse_args _ _ _) as [[args|e|sub]|] eqn:Hparse; [| | |done].
    + apply parse_args_namespace in Hparse as [Hhelp _]. rewrite Hhelp.
      intros [= <-]. unfold run.
      destruct (getattr args "random"); cbn [status output].
      2: { split; [done|]. by intros [[c [=]]|[[=] _]]. }
      destruct (_ || _); cbn [status output].
      { split; [done|]. by intros [[c [=]]|[[=] _]]. }
      destruct (envelope env args); cbn [status output].
      2: { split; [done|]. by intros [[c [=]]|[[=] _]]. }
      unfold dump. destruct (plistlib.writable _); cbn [status output].
      * split; [eauto | done].
      * split; [done|]. by intros [[c [=]]|[[=] _]].
    + intros [= <-]. cbn [status output]. split; [done|].
      intros [[c [=]]|[_ [[=]|[name [=]]]]].
    + assert (Hhelp : asks_help inv = true).
      { revert Hparse.
        destruct inv as [h u r [[name arg_strings]|]];
          unfold asks_help, parse_args;
          cbn [command opt_uuid opt_random opt_help].
        2: { by destruct h. }
        destruct (plain name && modelled arg_strings); [|done].
        destruct h; [done|]. cbn [orb].
        destruct (subparsers !! name) as [p|]; [|done].
        unfold parse_subcommand.
        destruct (existsb is_help (before_separator arg_strings)); [done|].
        destruct (positional p) as [a|].
        - destruct (nargs a).
          + destruct (one_argument arg_strings) as [[s extras]|]; [|done].
            destruct (convert env (type a) s); [done|]. by destruct extras.
          + by destruct (convert_all _ _ _).
        - by destruct arg_strings. }
      destruct sub as [name|]; intros [= <-]; cbn [status output];
        (split; [intros _; right; split; [done|]; eauto | done]).
Qed.

Lemma status_zero_iff_document_or_help_witness :
  main example_env
       {| opt_help := false; opt_uuid := None; opt_random := false;
          command := Some ("RestartDevice", ["--help"]) |} =
  Some {| output := [print_subcommand_help "RestartDevice"]; status := 0 |} ∧
  (status {| output := [print_subcommand_help "RestartDevice"];
             status := 0 |} = 0 ∨
   status {| output := [print_subcommand_help "RestartDevice"];
             status := 0 |} = 1 ∨
   status {| output := [print_subcommand_help "RestartDevice"];
             status := 0 |} = 2).
Proof.
  assert (Hmain : main example_env
       {| opt_help := false; opt_uuid := None; opt_random := false;
          command := Some ("RestartDevice", ["--help"]) |} =
    Some {| output := [print_subcommand_help "RestartDevice"]; status := 0 |})
    by reflexivity.
  split; [exact Hmain|].
  exact (proj1 (status_zero_iff_document_or_help _ _ _ Hmain)).
Defined.

(** X2.  Without [-u]/[--uuid], each fixed sub-command always succeeds,
    whatever the random bytes: the run writes the envelope with the
    generated UUID and the body [{RequestType: name}] and ends with
    status 0. *)
Theorem fixed_command_always_succeeds :
  Forall (λ name, ∀ env,
    main env {| opt_help := false; opt_uuid := None; opt_random := false;
                command := Some (name, []) |} =
    Some {| output := [plist_document
              {[ "CommandUUID" := VStr (uuid.str (uuid.uuid4 (urandom16 env)));
                 "Command" := VDict {[ "RequestType" := VStr name ]} ]}];
            status := 0 |})
    fixed_commands.
Proof.
  apply Forall_forall. intros name Hin env. unfold main.
  rewrite parse_args_simple by done. f_equal.
  change (run env _) with
    (dump {[ "CommandUUID" := VStr (uuid.str (uuid.uuid4 (urandom16 env)));
             "Command" := VDict {[ "RequestType" := VStr name ]} ]}).
  apply dump_simple.
  - apply uuid_string_writable, str_is_uuid_string.
  - by apply (proj1 (Forall_forall _ _) fixed_commands_writable).
Qed.

(** X3.  A run with [--random] and no sub-command behaves exactly as the
    run that names the element of [read_only_commands] at the drawn index
    (reduced modulo 4), with the same [-u]. *)
Theorem random_is_naming_the_selected (env : Env) (u : option string) :
  ∃ name : string,
    read_only_commands !! (randbelow env mod 4)%nat = Some name ∧
    main env {| opt_help := false; opt_uuid := u; opt_random := true;
                command := None |} =
    main env {| opt_help := false; opt_uuid := u; opt_random := false;
                command := Some (name, []) |}.
Proof.
  assert (Hlt : (randbelow env mod 4 < 4)%nat)
    by (apply Nat.mod_upper_bound; lia).
  unfold main. rewrite parse_args_no_command.
  unfold run at 1. unfold envelope, getattr, hasattr, random.choice.
  change (length read_only_commands) with 4%nat.
  destruct (randbelow env mod 4)%nat as [|[|[|[|n]]]]; [| | | |lia].
  - exists "SecurityInfo". split; [done|].
    rewrite parse_args_simple by compute_done. reflexivity.
  - exists "CertificateList". split; [done|].
    rewrite parse_args_simple by compute_done. reflexivity.
  - exists "ProfileList". split; [done|].
    rewrite parse_args_simple by compute_done. reflexivity.
  - exists "ProvisioningProfileList". split; [done|].
    rewrite parse_args_simple by compute_done. reflexivity.
Qed.

(** X4.  For each fixed sub-command, the generic [command <name>] gives
    the same run as the sub-command [<name>] itself. *)
Theorem generic_agrees_with_fixed :
  Forall (λ name, ∀ env u,
    main env {| opt_help := false; opt_uuid := u; opt_random := false;
                command := Some ("command", [name]) |} =
    main env {| opt_help := false; opt_uuid := u; opt_random := false;
                command := Some (name, []) |})
    fixed_commands.
Proof.
  apply Forall_forall. intros name Hin env u. unfold main.
  rewrite parse_args_generic_plain, parse_args_simple;
    [reflexivity | done |].
  by apply (proj1 (Forall_forall _ _) fixed_commands_plain).
Qed.

(** X5.  The closure made by [simple_command(None)] keeps the first request
    type it reads: after a call on a namespace whose [request_type] is not
    [None], a later call on any other namespace still returns that first
    request type. *)
Theorem generic_closure_latches (v : pyval) (args1 args2 : gmap string pyval) :
  v ≠ VNone →
  args1 !! "request_type" = Some v →
  simple_command_body (simple_command_body VNone args1).1 args2 =
  (v, {[ "RequestType" := v ]}).
Proof.
  intros Hv Hargs. rewrite (simple_command_generic v) by done. cbn [fst].
  unfold simple_command_body. by destruct v.
Qed.

Lemma generic_closure_latches_witness :
  VStr "ProfileList" ≠ VNone ∧
  ({[ "request_type" := VStr "ProfileList" ]} : gmap string pyval)
    !! "request_type" = Some (VStr "ProfileList") ∧
  simple_command_body
    (simple_command_body VNone {[ "request_type" := VStr "ProfileList" ]}).1
    {[ "request_type" := VStr "EraseDevice" ]} =
  (VStr "ProfileList", {[ "RequestType" := VStr "ProfileList" ]}).
Proof.
  assert (Hv : VStr "ProfileList" ≠ VNone) by discriminate.
  assert (Hargs : ({[ "request_type" := VStr "ProfileList" ]}
                   : gmap string pyval) !! "request_type" =
                  Some (VStr "ProfileList")) by reflexivity.
  split; [exact Hv|]. split; [exact Hargs|].
  exact (generic_closure_latches _ _ _ Hv Hargs).
Defined.

(** ** Command lines that the parser rejects *)

Lemma convert_error (env : Env) (t : ArgType) (s : string) (e : ArgumentError) :
  convert env t s = inl e → e = cannot_open s.
Proof.
  destruct t; cbn [convert]; [done|].
  destruct (String.eqb s "-"); [done|].
  destruct (files env !! s); [done|]. by intros [= <-].
Qed.

Lemma convert_all_error (env : Env) (t : ArgType) (arg_strings : list string)
    (e : ArgumentError) :
  convert_all env t arg_strings = inl e → ∃ s, e = cannot_open s.
Proof.
  induction arg_strings as [|s rest IH]; cbn [convert_all]; [done|].
  destruct (convert env t s) as [e'|value] eqn:Hs.
  - intros [= <-]. exists s. by eapply convert_error.
  - destruct (convert_all env t rest); [|done].
    intros [= <-]. by apply IH.
Qed.

(** A registered parser never reports an invalid choice. *)
Lemma parse_subcommand_error (env : Env) (p : ArgumentParser)
    (arg_strings : list string) (name : string) :
  parse_subcommand env p arg_strings ≠ sub_rejected (invalid_choice name).
Proof.
  unfold parse_subcommand.
  destruct (existsb is_help (before_separator arg_strings)).
  - destruct (positional p) as [a|]; [|done].
    destruct (before_help _) as [|s rest]; [done|].
    destruct (nargs a).
    + destruct (convert env (type a) s) eqn:Hs; [|done].
      apply convert_error in Hs as ->. done.
    + destruct (convert_all env (type a) (s :: rest)) eqn:Hall; [|done].
      apply convert_all_error in Hall as [s' ->]. done.
  - destruct (positional p) as [a|].
    + destruct (nargs a).
      * destruct (one_argument arg_strings) as [[s extras]|]; [|done].
        destruct (convert env (type a) s) eqn:Hs.
        -- apply convert_error in Hs as ->. done.
        -- by destruct extras.
      * destruct (convert_all env (type a) _) eqn:Hall; [|done].
        apply convert_all_error in Hall as [s ->]. done.
    + by destruct arg_strings.
Qed.

(** After parsing, nothing is reported through the parser any more. *)
Lemma run_no_usage_error (env : Env) (args : gmap string pyval)
    (e : ArgumentError) :
  output (run env args) ≠ [usage_error e].
Proof.
  unfold run. destruct (getattr args "random"); [|done].
  destruct (_ || _); [done|].
  destruct (envelope env args); [|done].
  unfold dump. by destruct (plistlib.writable _).
Qed.

Lemma subparsers_registered (name : string) :
  is_Some (subparsers !! name) ↔
  name ∈ (fixed_commands ++ ["DeviceInformation"; "InstallProfile";
                             "RemoveProfile"; "command"])%list.
Proof.
  rewrite subparsers_lookup, elem_of_app. case_bool_decide as Hin.
  - split; [by left | eauto].
  - unfold with_arguments, command_subparser, rem_prof_subparser,
      inst_prof_subparser, dev_info_subparser.
    rewrite !lookup_insert, !elem_of_cons, elem_of_nil.
    repeat case_decide; subst; split; eauto 6.
    + by intros [? ?].
    + intros [?|[?|[?|[?|[?|[]]]]]]; congruence.
Qed.

(** X6.  The sub-command names the script accepts are the 21 fixed names
    and [DeviceInformation], [InstallProfile], [RemoveProfile] and
    [command]: for a name that is an argument, a run without global [-h]
    reports an invalid choice (and then ends with status 2) exactly when
    the name is none of these, whatever follows the name. *)
Theorem invalid_choice_iff_unregistered (env : Env) (u : option string)
    (r : bool) (name : string) (arg_strings : list string) :
  plain name = true →
  modelled arg_strings = true →
  main env {| opt_help := false; opt_uuid := u; opt_random := r;
              command := Some (name, arg_strings) |} =
  Some {| output := [usage_error (invalid_choice name)]; status := 2 |} ↔
  name ∉ (fixed_commands ++ ["DeviceInformation"; "InstallProfile";
                             "RemoveProfile"; "command"])%list.
Proof.
  intros Hname Hargs. rewrite <- subparsers_registered.
  unfold main, parse_args. cbn [command opt_uuid opt_random opt_help].
  rewrite Hname, Hargs. cbn [andb].
  destruct (subparsers !! name) as [p|].
  - split; [|intros []; eauto].
    destruct (parse_subcommand env p arg_strings) as [attrs|e|] eqn:Hp.
    + intros [= Hrun]. exfalso.
      eapply run_no_usage_error. by rewrite Hrun.
    + intros [= ->]. by apply parse_subcommand_error in Hp.
    + done.
  - split; [by intros _ [? ?] | done].
Qed.

Lemma invalid_choice_iff_unregistered_witness :
  plain "EraseDevice" = true ∧
  modelled ["now"] = true ∧
  main example_env
       {| opt_help := false; opt_uuid := None; opt_random := false;
          command := Some ("EraseDevice", ["now"]) |} =
  Some {| output := [usage_error (invalid_choice "EraseDevice")];
          status := 2 |}.
Proof.
  split; [reflexivity|]. split; [reflexivity|].
  apply (invalid_choice_iff_unregistered example_env None false
           "EraseDevice" ["now"] eq_refl eq_refl).
  compute_done.
Defined.

(** X7.  A fixed sub-command takes no argument: followed by one or more
    arguments, it makes the run end with status 2 on the parser's report
    of unrecognized arguments, and nothing is written. *)
Theorem fixed_command_takes_no_argument (env : Env) (u : option string)
    (r : bool) (name s : string) (extras : list string) :
  name ∈ fixed_commands →
  forallb plain (s :: extras) = true →
  main env {| opt_help := false; opt_uuid := u; opt_random := r;
              command := Some (name, s :: extras) |} =
  Some {| output := [usage_error (unrecognized_arguments (s :: extras))];
          status := 2 |}.
Proof.
  intros Hin Hplain. unfold main.
  rewrite (parse_args_registered _ _ _ _ _ (simple_parser name)).
  - by rewrite parse_subcommand_plain.
  - by apply (proj1 (Forall_forall _ _) fixed_commands_plain).
  - apply (plain_strings _ Hplain).
  - by rewrite subparsers_lookup, bool_decide_eq_true_2.
Qed.

Lemma fixed_command_takes_no_argument_witness :
  "ProfileList" ∈ fixed_commands ∧
  forallb plain ["all"] = true ∧
  main example_env
       {| opt_help := false; opt_uuid := None; opt_random := false;
          command := Some ("ProfileList", ["all"]) |} =
  Some {| output := [usage_error (unrecognized_arguments ["all"])];
          status := 2 |}.
Proof.
  assert (Hin : "ProfileList" ∈ fixed_commands) by compute_done.
  split; [exact Hin|]. split; [reflexivity|].
  exact (fixed_command_takes_no_argument example_env None false
           "ProfileList" "all" [] Hin eq_refl).
Defined.

(** X8.  [RemoveProfile] and [command] take exactly one argument: without
    one the parser reports the missing argument, with more arguments it
    reports the surplus ones as unrecognized; either way the run ends with
    status 2 and nothing is written. *)
Theorem one_argument_commands (env : Env) (u : option string) (r : bool) :
  Forall (λ '(name, attribute),
    main env {| opt_help := false; opt_uuid := u; opt_random := r;
                command := Some (name, []) |} =
    Some {| output := [usage_error (required_argument attribute)];
            status := 2 |} ∧
    ∀ s s' extras,
      forallb plain (s :: s' :: extras) = true →
      main env {| opt_help := false; opt_uuid := u; opt_random := r;
                  command := Some (name, s :: s' :: extras) |} =
      Some {| output := [usage_error (unrecognized_arguments (s' :: extras))];
              status := 2 |})
    [("RemoveProfile", "identifier"); ("command", "request_type")].
Proof.
  repeat constructor.
  - intros s s' extras Hplain. unfold main.
    rewrite (parse_args_registered _ _ _ _ _
      {| help := "RemoveProfile MDM command";
         positional := Some {| dest := "identifier"; nargs := nargs_one;
                               type := type_str |};
         defaults := {[ "func" := VRemoveProfile ]} |});
      [|done|apply (plain_strings _ Hplain)|done].
    by rewrite parse_subcommand_plain.
  - intros s s' extras Hplain. unfold main.
    rewrite (parse_args_registered _ _ _ _ _
      {| help := "arbitrary MDM command (simple non-argument command)";
         positional := Some {| dest := "request_type"; nargs := nargs_one;
                               type := type_str |};
         defaults := {[ "func" := simple_command VNone ]} |});
      [|done|apply (plain_strings _ Hplain)|done].
    by rewrite parse_subcommand_plain.
Qed.

Lemma one_argument_commands_witness :
  forallb plain ["com.example.a"; "com.example.b"] = true ∧
  main example_env
       {| opt_help := false; opt_uuid := None; opt_random := false;
          command := Some ("RemoveProfile",
                           ["com.example.a"; "com.example.b"]) |} =
  Some {| output := [usage_error (unrecognized_arguments ["com.example.b"])];
          status := 2 |}.
Proof.
  split; [reflexivity|].
  pose proof (one_argument_commands example_env None false) as Hall.
  apply Forall_cons in Hall as [[_ Hmore] _].
  exact (Hmore "com.example.a" "com.example.b" [] eq_refl).
Defined.

(** X9.  [InstallProfile] on a path that cannot be opened fails while the
    command line is parsed: the run ends with status 2 on the parser's
    report for that path, before the check of [--random] and whatever
    follows the path, even a [-h], and nothing is written. *)
Theorem install_profile_unopenable (env : Env) (u : option string) (r : bool)
    (path : string) (extras : list string) :
  plain path = true →
  path ≠ "-" →
  modelled extras = true →
  files env !! path = None →
  main env {| opt_help := false; opt_uuid := u; opt_random := r;
              command := Some ("InstallProfile", path :: extras) |} =
  Some {| output := [usage_error (cannot_open path)]; status := 2 |}.
Proof.
  intros Hplain Hpath Hextras Hfile.
  destruct (plain_not_option _ Hplain) as [Hsep Hhelp].
  assert (Hconv : convert env FileType_rb path = inl (cannot_open path)).
  { unfold convert. apply String.eqb_neq in Hpath. by rewrite Hpath, Hfile. }
  unfold main.
  rewrite (parse_args_registered _ _ _ _ _
    {| help := "InstallProfile MDM command";
       positional := Some {| dest := "mobileconfig"; nargs := nargs_one;
                             type := FileType_rb |};
       defaults := {[ "func" := VInstallProfile ]} |}); [|done| |done].
  2: { unfold modelled in *. cbn [before_separator]. rewrite Hsep.
       cbn [forallb]. by rewrite Hplain, Hextras. }
  unfold parse_subcommand. cbn [positional nargs type dest defaults].
  cbn [before_separator]. rewrite Hsep. cbn [existsb before_help].
  rewrite Hhelp. cbn [orb].
  destruct (existsb is_help (before_separator extras)).
  - by rewrite Hconv.
  - unfold one_argument. rewrite Hsep.
    destruct extras as [|s' extras']; [by rewrite Hconv|].
    destruct (is_separator s'); by rewrite Hconv.
Qed.

Lemma install_profile_unopenable_witness :
  plain "missing.mobileconfig" = true ∧
  "missing.mobileconfig" ≠ "-" ∧
  modelled ["-h"] = true ∧
  files example_env !! "missing.mobileconfig" = None ∧
  main example_env
       {| opt_help := false; opt_uuid := None; opt_random := true;
          command := Some ("InstallProfile",
                           ["missing.mobileconfig"; "-h"]) |} =
  Some {| output := [usage_error (cannot_open "missing.mobileconfig")];
          status := 2 |}.
Proof.
  assert (Hpath : "missing.mobileconfig" ≠ "-") by discriminate.
  split; [reflexivity|]. split; [exact Hpath|]. split; [reflexivity|].
  split; [reflexivity|].
  exact (install_profile_unopenable example_env None true
           "missing.mobileconfig" ["-h"] eq_refl Hpath eq_refl eq_refl).
Defined.

(** ** The bodies that can be written *)

(** The body that the function registered for a sub-command returns on the
    namespace of that sub-command. *)
Lemma call_parsed (env : Env) (d : string) (inv : Invocation)
    (args : gmap string pyval) (func : pyval) (body : gmap string pyval) :
  parse_args env d inv = Some (namespace args) →
  args !! "func" = Some func →
  call env func args = Ok body →
  (∃ name, body !! "RequestType" = Some (VStr name)) ∧
  dom body ⊆ {[ "RequestType"; "Queries"; "Payload"; "Identifier" ]}.
Proof.
  intros (_ & attrs & Hattrs & ->)%parse_args_namespace.
  destruct Hattrs as [|name Hin|request_type|identifier|path contents Hfile|
                      |queries].
  - by intros [=].
  - intros [= <-].
    change (call _ _ _) with
      (Ok ({[ "RequestType" := VStr name ]} : gmap string pyval)).
    intros [= <-].
    split; [by eexists|]. rewrite dom_singleton_L. compute_done.
  - intros [= <-].
    change (call _ _ _) with
      (Ok ({[ "RequestType" := VStr request_type ]} : gmap string pyval)).
    intros [= <-].
    split; [by eexists|]. rewrite dom_singleton_L. compute_done.
  - intros [= <-].
    change (call _ _ _) with
      (Ok ({[ "RequestType" := VStr "RemoveProfile";
              "Identifier" := VStr identifier ]} : gmap string pyval)).
    intros [= <-]. split; [by eexists|].
    rewrite dom_insert_L, dom_singleton_L. compute_done.
  - intros Hf. change (_ !! "func") with (Some VInstallProfile) in Hf.
    injection Hf as <-. cbn [call]. unfold install_profile.
    destruct (plistlib_has_Data env); [|done].
    change (getattr _ "mobileconfig" ≫= _) with
      (Ok ({[ "RequestType" := VStr "InstallProfile";
              "Payload" := VData contents ]} : gmap string pyval)).
    intros [= <-]. split; [by eexists|].
    rewrite dom_insert_L, dom_singleton_L. compute_done.
  - intros Hf. change (_ !! "func") with (Some VInstallProfile) in Hf.
    injection Hf as <-. cbn [call]. unfold install_profile.
    destruct (plistlib_has_Data env); [|done].
    change (getattr _ "mobileconfig") with (Ok (stdin env)).
    cbn [mbind result_bind].
    destruct (stdin env) as [| | | | | | |f|s| | | |];
      cbn [mbind result_bind plistlib.Data]; try done.
    intros [= <-]. split; [by eexists|].
    rewrite dom_insert_L, dom_singleton_L. compute_done.
  - intros [= <-].
    destruct queries as [|q queries].
    + change (call _ _ _) with
        (Ok ({[ "RequestType" := VStr "DeviceInformation" ]}
             : gmap string pyval)).
      intros [= <-].
      split; [by eexists|]. rewrite dom_singleton_L. compute_done.
    + change (call _ _ _) with
        (Ok (<["Queries" := VList (VStr <$> q :: queries)]>
               ({[ "RequestType" := VStr "DeviceInformation" ]}
                : gmap string pyval))).
      intros [= <-]. split; [by eexists|].
      rewrite dom_insert_L, dom_singleton_L. compute_done.
Qed.

(** X10.  In every property list written, [Command] is a dictionary that
    has the key [RequestType] with a string under it, and no key other
    than [RequestType], [Queries], [Payload] and [Identifier]. *)
Theorem body_has_request_type (env : Env) (inv : Invocation) (o : Outcome)
    (c : gmap string pyval) :
  main env inv = Some o →
  plist_document c ∈ output o →
  ∃ (body : gmap string pyval) (name : string),
    c !! "Command" = Some (VDict body) ∧
    body !! "RequestType" = Some (VStr name) ∧
    dom body ⊆ {[ "RequestType"; "Queries"; "Payload"; "Identifier" ]}.
Proof.
  intros Hmain Hc.
  destruct (main_emits _ _ _ _ Hmain Hc) as (parsed & Hparse & Henv & _).
  apply envelope_inv in Henv
    as (random & uuid & func & args & body & _ & Hsel & _ & Hf & Hb & ->).
  destruct (truthy random).
  - destruct Hsel as (name & _ & ->).
    rewrite lookup_insert_eq in Hf. injection Hf as <-.
    injection Hb as <-. exists {[ "RequestType" := VStr name ]}, name.
    split; [done|]. split; [done|]. rewrite dom_singleton_L. compute_done.
  - subst args.
    destruct (call_parsed _ _ _ _ _ _ Hparse Hf Hb) as [[name Hname] Hdom].
    by exists body, name.
Qed.

Lemma body_has_request_type_witness :
  main example_env
       {| opt_help := false; opt_uuid := None; opt_random := false;
          command := Some ("RemoveProfile", ["com.example.profile"]) |} =
  Some {| output := [plist_document
            {[ "CommandUUID" := VStr "00000000-0000-4000-8000-000000000000";
               "Command" := VDict
                 {[ "RequestType" := VStr "RemoveProfile";
                    "Identifier" := VStr "com.example.profile" ]} ]}];
          status := 0 |} ∧
  ∃ (body : gmap string pyval) (name : string),
    ({[ "CommandUUID" := VStr "00000000-0000-4000-8000-000000000000";
        "Command" := VDict
          {[ "RequestType" := VStr "RemoveProfile";
             "Identifier" := VStr "com.example.profile" ]} ]}
     : gmap string pyval) !! "Command" = Some (VDict body) ∧
    body !! "RequestType" = Some (VStr name) ∧
    dom body ⊆ {[ "RequestType"; "Queries"; "Payload"; "Identifier" ]}.
Proof.
  assert (Hmain : main example_env
       {| opt_help := false; opt_uuid := None; opt_random := false;
          command := Some ("RemoveProfile", ["com.example.profile"]) |} =
    Some {| output := [plist_document
            {[ "CommandUUID" := VStr "00000000-0000-4000-8000-000000000000";
               "Command" := VDict
                 {[ "RequestType" := VStr "RemoveProfile";
                    "Identifier" := VStr "com.example.profile" ]} ]}];
          status := 0 |}) by (vm_compute; reflexivity).
  split; [exact Hmain|].
  exact (body_has_request_type _ _ _ _ Hmain (list_elem_of_here _ _)).
Defined.

(** ** What a run depends on *)

Lemma convert_same_files (env env' : Env) (t : ArgType) (s : string) :
  files env = files env' → stdin env = stdin env' →
  convert env t s = convert env' t s.
Proof. intros Hf Hs. unfold convert. by rewrite Hf, Hs. Qed.

Lemma convert_all_same_files (env env' : Env) (t : ArgType)
    (arg_strings : list string) :
  files env = files env' → stdin env = stdin env' →
  convert_all env t arg_strings = convert_all env' t arg_strings.
Proof.
  intros Hf Hs. induction arg_strings as [|s rest IH]; [done|].
  cbn [convert_all]. by rewrite IH, (convert_same_files env env').
Qed.

(** The parser looks at the environment only to open files; the default
    of [--uuid] does not matter when the option is given. *)
Lemma parse_args_same_files (env env' : Env) (d d' u : string) (h r : bool)
    (cmd : option (string * list string)) :
  files env = files env' → stdin env = stdin env' →
  parse_args env d {| opt_help := h; opt_uuid := Some u; opt_random := r;
                      command := cmd |} =
  parse_args env' d' {| opt_help := h; opt_uuid := Some u; opt_random := r;
                        command := cmd |}.
Proof.
  intros Hf Hs. unfold parse_args.
  cbn [command opt_uuid opt_random opt_help default].
  destruct cmd as [[name arg_strings]|]; [|done].
  destruct (plain name && modelled arg_strings); [|done].
  destruct h; [done|].
  destruct (subparsers !! name) as [p|]; [|done].
  unfold parse_subcommand.
  destruct (existsb is_help (before_separator arg_strings)).
  - destruct (positional p) as [a|]; [|done].
    destruct (before_help _) as [|s rest]; [done|].
    destruct (nargs a).
    + by rewrite (convert_same_files env env').
    + by rewrite (convert_all_same_files env env').
  - destruct (positional p) as [a|]; [|done]. destruct (nargs a).
    + destruct (one_argument arg_strings) as [[s extras]|]; [|done].
      by rewrite (convert_same_files env env').
    + by rewrite (convert_all_same_files env env').
Qed.

Lemma run_without_random (env env' : Env) (args : gmap string pyval) :
  plistlib_has_Data env = plistlib_has_Data env' →
  args !! "random" = Some (VBool false) →
  run env args = run env' args.
Proof.
  intros Hdata Hrandom. unfold run, envelope, getattr. rewrite Hrandom.
  cbn [truthy mbind result_bind].
  destruct (_ || _); [done|].
  destruct (args !! "uuid"); [|done].
  destruct (args !! "func") as [func|]; [|done].
  cbn [mbind result_bind].
  assert (Hcall : call env func args = call env' func args).
  { destruct func; try done. cbn [call]. unfold install_profile.
    by rewrite Hdata. }
  by rewrite Hcall.
Qed.

(** X11.  With [-u]/[--uuid] given and without [--random], a run depends
    on nothing random: two environments with the same files, the same
    standard input and the same [plistlib] give the same output and
    status, whatever the random bytes and the random number in each. *)
Theorem explicit_run_ignores_randomness (env env' : Env) (inv : Invocation)
    (u : string) :
  opt_uuid inv = Some u →
  opt_random inv = false →
  files env = files env' →
  stdin env = stdin env' →
  plistlib_has_Data env = plistlib_has_Data env' →
  main env inv = main env' inv.
Proof.
  destruct inv as [h ou r cmd]. cbn [opt_uuid opt_random].
  intros -> -> Hf Hs Hdata. unfold main.
  rewrite (parse_args_same_files env env' _
             (uuid.str (uuid.uuid4 (urandom16 env'))) u h false cmd Hf Hs).
  destruct (parse_args _ _ _) as [[args|e|sub]|] eqn:Hparse; [|done..].
  apply parse_args_globals in Hparse as (_ & Hrandom & _).
  f_equal. by apply run_without_random.
Qed.

Lemma explicit_run_ignores_randomness_witness :
  Some "6b1e7a9c-0d2f-4c55-9a3e-1f2d3c4b5a69" =
    Some "6b1e7a9c-0d2f-4c55-9a3e-1f2d3c4b5a69" ∧
  false = false ∧
  files example_env =
    files {| urandom16 := 2 ^ 127 + 5; randbelow := 3;
             files := files example_env; stdin := stdin example_env;
             plistlib_has_Data := true |} ∧
  stdin example_env =
    stdin {| urandom16 := 2 ^ 127 + 5; randbelow := 3;
             files := files example_env; stdin := stdin example_env;
             plistlib_has_Data := true |} ∧
  plistlib_has_Data example_env =
    plistlib_has_Data
      {| urandom16 := 2 ^ 127 + 5; randbelow := 3;
         files := files example_env; stdin := stdin example_env;
         plistlib_has_Data := true |} ∧
  main example_env
       {| opt_help := false;
          opt_uuid := Some "6b1e7a9c-0d2f-4c55-9a3e-1f2d3c4b5a69";
          opt_random := false;
          command := Some ("DeviceInformation", ["Model"]) |} =
  main {| urandom16 := 2 ^ 127 + 5; randbelow := 3;
          files := files example_env; stdin := stdin example_env;
          plistlib_has_Data := true |}
       {| opt_help := false;
          opt_uuid := Some "6b1e7a9c-0d2f-4c55-9a3e-1f2d3c4b5a69";
          opt_random := false;
          command := Some ("DeviceInformation", ["Model"]) |}.
Proof.
  split; [reflexivity|]. split; [reflexivity|].
  split; [reflexivity|]. split; [reflexivity|]. split; [reflexivity|].
  exact (explicit_run_ignores_randomness example_env
           {| urandom16 := 2 ^ 127 + 5; randbelow := 3;
              files := files example_env; stdin := stdin example_env;
              plistlib_has_Data := true |}
           {| opt_help := false;
              opt_uuid := Some "6b1e7a9c-0d2f-4c55-9a3e-1f2d3c4b5a69";
              opt_random := false;
              command := Some ("DeviceInformation", ["Model"]) |}
           "6b1e7a9c-0d2f-4c55-9a3e-1f2d3c4b5a69"
           eq_refl eq_refl eq_refl eq_refl eq_refl).
Defined.

(** ** The profile and the help *)

(** [read] on a file that was just opened returns all of it. *)
Lemma read_fresh (contents : list Byte.byte) :
  (read {| f_bytes := contents; f_pos := 0 |}).1 = contents.
Proof. reflexivity. Qed.

(** X12.  Where [plistlib] has the class [Data] (CPython up to 3.8),
    [InstallProfile] on the path of a file that can be opened hands to the
    writer the body whose [Payload] is the data of exactly the bytes of
    the file and whose [RequestType] is ["InstallProfile"]. *)
Theorem install_profile_payload (env : Env) (u : option string)
    (path : string) (contents : list Byte.byte) :
  plistlib_has_Data env = true →
  plain path = true →
  path ≠ "-" →
  files env !! path = Some contents →
  main env {| opt_help := false; opt_uuid := u; opt_random := false;
              command := Some ("InstallProfile", [path]) |} =
  Some (dump {[ "CommandUUID" :=
                  VStr (default (uuid.str (uuid.uuid4 (urandom16 env))) u);
                "Command" := VDict {[ "RequestType" := VStr "InstallProfile";
                                      "Payload" := VData contents ]} ]}).
Proof.
  intros Hdata Hplain Hpath Hfile. unfold main.
  rewrite (parse_args_install_profile _ _ _ _ _ contents) by done.
  destruct env as [rnd n fs inp data]. cbn [plistlib_has_Data] in Hdata.
  subst data. reflexivity.
Qed.

Lemma install_profile_payload_witness :
  plistlib_has_Data example_env = true ∧
  plain "wifi.mobileconfig" = true ∧
  "wifi.mobileconfig" ≠ "-" ∧
  files example_env !! "wifi.mobileconfig" =
    Some [Byte.x3c; Byte.x3f; Byte.x78] ∧
  main example_env
       {| opt_help := false;
          opt_uuid := Some "6b1e7a9c-0d2f-4c55-9a3e-1f2d3c4b5a69";
          opt_random := false;
          command := Some ("InstallProfile", ["wifi.mobileconfig"]) |} =
  Some {| output := [plist_document
       {[ "CommandUUID" := VStr "6b1e7a9c-0d2f-4c55-9a3e-1f2d3c4b5a69";
          "Command" := VDict {[ "RequestType" := VStr "InstallProfile";
                                "Payload" := VData [Byte.x3c; Byte.x3f;
                                                    Byte.x78] ]} ]}];
     status := 0 |}.
Proof.
  assert (Hpath : "wifi.mobileconfig" ≠ "-") by discriminate.
  split; [reflexivity|]. split; [reflexivity|]. split; [exact Hpath|].
  split; [reflexivity|].
  exact (install_profile_payload example_env
           (Some "6b1e7a9c-0d2f-4c55-9a3e-1f2d3c4b5a69")
           "wifi.mobileconfig" _ eq_refl eq_refl Hpath eq_refl).
Defined.


